(** * Order tracker: storage and tracker operations

    A shallow embedding of [backend/in_memory_storage.py] and
    [backend/order_tracker.py].

    - Python values that reach the tracker (parsed JSON bodies, test
      arguments) are the inductive [pyval].
    - The order records built by [add_order] are mutable dict objects:
      they live in a heap of objects and the storage dictionary maps an
      order identifier to a reference, so that the in-place assignment
      [order["status"] = new_status] is visible through every reference.
    - The items of an order are stored as they are received, and no
      operation of the tracker or of the storage assigns to them: they are
      values.
    - A method is a computation in [M]: it takes the state and gives back
      either a raised exception or a returned value, together with the
      state it leaves behind.
    - The storage dictionary is a finite map: [get_all] lists its values
      in the order of the map, where Python lists them in insertion order.
      No property below depends on that order. *)

From Stdlib Require Import QArith.
From stdpp Require Import base option list strings gmap fin_maps.

Local Open Scope string_scope.
#[local] Set Warnings "-clear-no-such-hyp".

(** ** Python values *)

Module Py.

(** The values the tracker can be handed.  A float is the rational number
    it denotes (a JSON document has no NaN or infinity); the keys of a
    dict are strings, as in a JSON object, in insertion order. *)
#[warnings="-register-all"] Inductive pyval : Type :=
  | PyNone
  | PyBool (b : bool)
  | PyInt (n : Z)
  | PyFloat (q : Q)
  | PyStr (s : string)
  | PyList (l : list pyval)
  | PyDict (d : list (string * pyval)).

Abbreviation pydict := (list (string * pyval)).

(** The classes the source tests with [isinstance]. *)
Inductive pytype : Type := TStr | TInt | TList | TDict.

(** [isinstance(v, t)]; [bool] is a subclass of [int]. *)
Definition isinstance (v : pyval) (t : pytype) : bool :=
  match t, v with
  | TStr, PyStr _ => true
  | TInt, PyInt _ => true
  | TInt, PyBool _ => true
  | TList, PyList _ => true
  | TDict, PyDict _ => true
  | _, _ => false
  end.

(** Truth value of [v], as [not v] and [if v] test it. *)
Definition truthy (v : pyval) : bool :=
  match v with
  | PyNone => false
  | PyBool b => b
  | PyInt n => negb (n =? 0)%Z
  | PyFloat q => negb (Qeq_bool q 0)
  | PyStr s => negb (bool_decide (s = ""))
  | PyList l => negb (bool_decide (l = []))
  | PyDict d => negb (bool_decide (d = []))
  end.

(** Contents of a value whose class has already been tested. *)
Definition str_value (v : pyval) : string :=
  match v with PyStr s => s | _ => "" end.

Definition int_value (v : pyval) : Z :=
  match v with PyInt n => n | PyBool b => Z.b2z b | _ => 0%Z end.

Definition list_value (v : pyval) : list pyval :=
  match v with PyList l => l | _ => [] end.

Definition dict_value (v : pyval) : pydict :=
  match v with PyDict d => d | _ => [] end.

Arguments isinstance : simpl nomatch.
Arguments truthy : simpl nomatch.
Arguments str_value : simpl nomatch.
Arguments int_value : simpl nomatch.
Arguments list_value : simpl nomatch.
Arguments dict_value : simpl nomatch.

(** *** Dict operations *)

(** [d.get(k)] *)
Fixpoint dict_get (k : string) (d : pydict) : option pyval :=
  match d with
  | [] => None
  | (k', v) :: d' => if decide (k = k') then Some v else dict_get k d'
  end.

(** [k in d] *)
Definition dict_contains (k : string) (d : pydict) : bool :=
  bool_decide (is_Some (dict_get k d)).

(** [d[k] = v]: an existing key keeps its position, a new key goes last. *)
Fixpoint dict_set (k : string) (v : pyval) (d : pydict) : pydict :=
  match d with
  | [] => [(k, v)]
  | (k', v') :: d' =>
      if decide (k = k') then (k', v) :: d' else (k', v') :: dict_set k v d'
  end.

Definition dict_keys (d : pydict) : list string := d.*1.

(** *** Equality [a == b] *)

Definition num_value (v : pyval) : option Q :=
  match v with
  | PyBool b => Some (inject_Z (Z.b2z b))
  | PyInt n => Some (inject_Z n)
  | PyFloat q => Some q
  | _ => None
  end.

Fixpoint py_eq (a b : pyval) {struct a} : bool :=
  match a, b with
  | PyNone, PyNone => true
  | PyStr s, PyStr t => bool_decide (s = t)
  | PyList l, PyList m =>
      (fix all2 (l m : list pyval) {struct l} : bool :=
         match l, m with
         | [], [] => true
         | x :: l', y :: m' => py_eq x y && all2 l' m'
         | _, _ => false
         end) l m
  | PyDict d, PyDict e =>
      bool_decide (length d = length e) &&
      forallb (fun kv : string * pyval =>
                 let (k, v) := kv in
                 match dict_get k e with
                 | Some w => py_eq v w
                 | None => false
                 end) d
  | _, _ =>
      match num_value a, num_value b with
      | Some p, Some q => Qeq_bool p q
      | _, _ => false
      end
  end.

End Py.

Export Py.

(** ** Exceptions *)

(** The [ValueError]s of the tracker, one per message of the source. *)
Inductive value_error : Type :=
  | OrderIdRequired         (* "Order ID is required and must be a non-empty string." *)
  | CustomerIdRequired      (* "Customer ID is required and must be a non-empty string." *)
  | ItemsNotNonEmptyList    (* "Items must be a non-empty list." *)
  | ItemNotDict             (* "Each item must be a dictionary." *)
  | ItemMissingFields       (* "Each item must have 'name' and 'quantity' fields." *)
  | ItemQuantityNotPositive (* "Item quantity must be a positive integer." *)
  | OrderAlreadyExists (order_id : string)
                            (* "Order with ID '...' already exists." *)
  | OrderIdNotNonEmpty      (* "Order ID must be a non-empty string." *)
  | InvalidStatus (status : pyval).
                            (* "Invalid status '...'. Must be one of: ..." *)

Inductive key_error : Type :=
  | OrderNotFound (order_id : string)  (* "Order with ID '...' not found." *)
  | NoSuchKey (key : string).          (* d[key] on a dict without key *)

Inductive exn : Type :=
  | ValueError (e : value_error)
  | KeyError (e : key_error)
  | TypeError (msg : string).

(** The two error kinds of the specification. *)
Definition is_validation_error (e : exn) : Prop :=
  match e with ValueError _ => True | _ => False end.

Definition is_not_found_error (e : exn) : Prop :=
  match e with KeyError (OrderNotFound _) => True | _ => False end.

(** ** State and the method monad *)

(** A reference to a dict object. *)
Abbreviation loc := nat.

(** [_orders] is the dictionary of the storage; [heap] holds the
    dict objects created so far, a reference being an index into it. *)
Record state : Type := State {
  _orders : gmap string loc;
  heap : list pydict;
}.

Definition empty_state : state := State ∅ [].

Inductive outcome (A : Type) : Type :=
  | Raise (e : exn)
  | Return (a : A).
Arguments Raise {A} e.
Arguments Return {A} a.

Definition M (A : Type) : Type := state → outcome A * state.

Definition ret {A} (a : A) : M A := fun st => (Return a, st).

Definition raise {A} (e : exn) : M A := fun st => (Raise e, st).

Definition bind {A B} (m : M A) (f : A → M B) : M B :=
  fun st =>
    match m st with
    | (Return a, st') => f a st'
    | (Raise e, st') => (Raise e, st')
    end.

#[global] Instance M_ret : MRet M := @ret.
#[global] Instance M_bind : MBind M := fun A B f m => bind m f.

(** *** Dict objects *)

(** A dict display [{...}] creates a new object. *)
Definition new_dict (d : pydict) : M loc :=
  fun st => (Return (length (heap st)), State (_orders st) (heap st ++ [d])).

(** [o[k] = v].  A reference comes from [new_dict] and points into the
    heap; objects are never freed. *)
Definition setitem (o : loc) (k : string) (v : pyval) : M unit :=
  fun st => (Return (), State (_orders st) (alter (dict_set k v) o (heap st))).

(** [o[k]] *)
Definition getitem (o : loc) (k : string) : M pyval :=
  fun st =>
    match heap st !! o ≫= dict_get k with
    | Some v => (Return v, st)
    | None => (Raise (KeyError (NoSuchKey k)), st)
    end.

(** [v[k]] for a dict received as a value. *)
Definition subscript (v : pyval) (k : string) : M pyval :=
  match dict_get k (dict_value v) with
  | Some w => mret w
  | None => raise (KeyError (NoSuchKey k))
  end.

(** [v in s] for a set of strings: the value is hashed first, and a list
    or a dict has no hash. *)
Definition in_set (v : pyval) (s : gset string) : M bool :=
  match v with
  | PyList _ => raise (TypeError "unhashable type: 'list'")
  | PyDict _ => raise (TypeError "unhashable type: 'dict'")
  | PyStr x => mret (bool_decide (x ∈ s))
  | _ => mret false
  end.

(** [for x in l: body] *)
Fixpoint for_each {A} (l : list A) (body : A → M unit) : M unit :=
  match l with
  | [] => mret ()
  | x :: l' => body x;; for_each l' body
  end.

(** [[x for x in l if test]] *)
Fixpoint comprehension {A} (l : list A) (test : A → M bool) : M (list A) :=
  match l with
  | [] => mret []
  | x :: l' =>
      b ← test x;
      r ← comprehension l' test;
      mret (if b : bool then x :: r else r)
  end.

(** ** in_memory_storage.py *)

Module InMemoryStorage.

Definition save (order_id : string) (order_data : loc) : M unit :=
  fun st => (Return (), State (<[order_id := order_data]> (_orders st)) (heap st)).

Definition get (order_id : string) : M (option loc) :=
  fun st => (Return (_orders st !! order_id), st).

Definition get_all : M (list loc) :=
  fun st => (Return ((map_to_list (_orders st)).*2), st).

Definition exists_ (order_id : string) : M bool :=
  fun st => (Return (bool_decide (is_Some (_orders st !! order_id))), st).

Definition delete (order_id : string) : M (option loc) :=
  fun st =>
    (Return (_orders st !! order_id),
     State (base.delete order_id (_orders st)) (heap st)).

Definition clear : M unit :=
  fun st => (Return (), State ∅ (heap st)).

End InMemoryStorage.

(** ** order_tracker.py *)

Definition VALID_STATUSES : gset string :=
  {[ "pending"; "shipped"; "delivered"; "cancelled" ]}.

Module OrderTracker.

(** The body of the loop over the items in [add_order]. *)
Definition check_item (item : pyval) : M unit :=
  if negb (isinstance item TDict) then
    raise (ValueError ItemNotDict)
  else if negb (dict_contains "name" (dict_value item))
          || negb (dict_contains "quantity" (dict_value item)) then
    raise (ValueError ItemMissingFields)
  else
    q ← subscript item "quantity";
    if negb (isinstance q TInt) || (int_value q <=? 0)%Z then
      raise (ValueError ItemQuantityNotPositive)
    else mret ().

Definition add_order (order_id items customer_id : pyval) : M loc :=
  if negb (truthy order_id) || negb (isinstance order_id TStr) then
    raise (ValueError OrderIdRequired)
  else if negb (truthy customer_id) || negb (isinstance customer_id TStr) then
    raise (ValueError CustomerIdRequired)
  else if negb (truthy items) || negb (isinstance items TList) then
    raise (ValueError ItemsNotNonEmptyList)
  else
    for_each (list_value items) check_item;;
    dup ← InMemoryStorage.exists_ (str_value order_id);
    if dup : bool then
      raise (ValueError (OrderAlreadyExists (str_value order_id)))
    else
      order ← new_dict [ ("order_id", order_id);
                         ("items", items);
                         ("customer_id", customer_id);
                         ("status", PyStr "pending") ];
      InMemoryStorage.save (str_value order_id) order;;
      mret order.

Definition get_order_by_id (order_id : pyval) : M loc :=
  if negb (truthy order_id) || negb (isinstance order_id TStr) then
    raise (ValueError OrderIdNotNonEmpty)
  else
    order ← InMemoryStorage.get (str_value order_id);
    match order with
    | None => raise (KeyError (OrderNotFound (str_value order_id)))
    | Some order => mret order
    end.

Definition update_order_status (order_id new_status : pyval) : M loc :=
  if negb (truthy order_id) || negb (isinstance order_id TStr) then
    raise (ValueError OrderIdNotNonEmpty)
  else
    known ← in_set new_status VALID_STATUSES;
    if negb known then
      raise (ValueError (InvalidStatus new_status))
    else
      order ← InMemoryStorage.get (str_value order_id);
      match order with
      | None => raise (KeyError (OrderNotFound (str_value order_id)))
      | Some order =>
          setitem order "status" new_status;;
          InMemoryStorage.save (str_value order_id) order;;
          mret order
      end.

Definition list_all_orders : M (list loc) :=
  InMemoryStorage.get_all.

Definition list_orders_by_status (status : pyval) : M (list loc) :=
  known ← in_set status VALID_STATUSES;
  if negb known then
    raise (ValueError (InvalidStatus status))
  else
    all ← InMemoryStorage.get_all;
    comprehension all
      (fun order => s ← getitem order "status"; mret (py_eq s status)).

End OrderTracker.

Import OrderTracker.

(** ** app.py *)

(** The route handlers, from the point where Flask has parsed the request:
    [data] is what [request.get_json()] returned, an identifier is the
    string of the URL, a query argument is what [request.args.get] returned
    (a string, or [None]).  A handler returns a body and a status code, or
    lets an exception escape that none of its [except] clauses names. *)
Module App.

(** What is handed to [jsonify]. *)
Inductive json_body : Type :=
  | JsonOrder (order : loc)           (* jsonify(order) *)
  | JsonOrders (found : list loc)     (* jsonify(orders) *)
  | JsonError (e : exn)               (* jsonify({"error": str(e)}) *)
  | JsonErrorText (msg : string).     (* jsonify({"error": "..."}) *)

(** An exception that leaves the handler. *)
Inductive escaped : Type :=
  | Escaped (e : exn)
  | AttributeError (attribute : string).  (* data.get on a value without get *)

Inductive reply : Type :=
  | Response (body : json_body) (code : nat)
  | Unhandled (e : escaped).

Definition handler : Type := state → reply * state.

(** [d.get(k)]: the value, or [None]. *)
Definition get_or_none (d : pydict) (k : string) : pyval :=
  default PyNone (dict_get k d).

Definition create_order (data : pyval) : handler :=
  fun st =>
    if negb (truthy data) then
      (Response (JsonErrorText "Request body must be valid JSON.") 400, st)
    else if negb (isinstance data TDict) then
      (Unhandled (AttributeError "get"), st)
    else
      let order_id := get_or_none (dict_value data) "order_id" in
      let items := get_or_none (dict_value data) "items" in
      let customer_id := get_or_none (dict_value data) "customer_id" in
      match add_order order_id items customer_id st with
      | (Return order, st') => (Response (JsonOrder order) 201, st')
      | (Raise (ValueError e), st') =>
          (Response (JsonError (ValueError e)) 400, st')
      | (Raise e, st') => (Unhandled (Escaped e), st')
      end.

Definition get_order (order_id : string) : handler :=
  fun st =>
    match get_order_by_id (PyStr order_id) st with
    | (Return order, st') => (Response (JsonOrder order) 200, st')
    | (Raise (ValueError e), st') =>
        (Response (JsonError (ValueError e)) 404, st')
    | (Raise (KeyError e), st') =>
        (Response (JsonError (KeyError e)) 404, st')
    | (Raise e, st') => (Unhandled (Escaped e), st')
    end.

Definition update_order (order_id : string) (data : pyval) : handler :=
  fun st =>
    if negb (truthy data) then
      (Response (JsonErrorText "Request body must be valid JSON.") 400, st)
    else if negb (isinstance data TDict) then
      (Unhandled (AttributeError "get"), st)
    else
      let new_status := get_or_none (dict_value data) "status" in
      if negb (truthy new_status) then
        (Response (JsonErrorText "Missing 'status' field in request body.") 400,
         st)
      else
        match update_order_status (PyStr order_id) new_status st with
        | (Return order, st') => (Response (JsonOrder order) 200, st')
        | (Raise (ValueError e), st') =>
            (Response (JsonError (ValueError e)) 400, st')
        | (Raise (KeyError e), st') =>
            (Response (JsonError (KeyError e)) 404, st')
        | (Raise e, st') => (Unhandled (Escaped e), st')
        end.

(** A query argument that is present and not empty. *)
Definition given (arg : option string) : bool :=
  match arg with
  | Some s => negb (bool_decide (s = ""))
  | None => false
  end.

(** The body of the [try] in [list_orders]. *)
Definition list_orders_body (status customer_id : option string)
    : M (list loc) :=
  found ← (if given status
           then list_orders_by_status (PyStr (default "" status))
           else list_all_orders);
  if given customer_id then
    comprehension found
      (fun o => c ← getitem o "customer_id";
                mret (py_eq c (PyStr (default "" customer_id))))
  else mret found.

Definition list_orders (status customer_id : option string) : handler :=
  fun st =>
    match list_orders_body status customer_id st with
    | (Return found, st') => (Response (JsonOrders found) 200, st')
    | (Raise (ValueError e), st') =>
        (Response (JsonError (ValueError e)) 400, st')
    | (Raise e, st') => (Unhandled (Escaped e), st')
    end.

(** The body of the [try] in [delete_order]. *)
Definition delete_order_body (order_id : string) : M loc :=
  order ← get_order_by_id (PyStr order_id);
  InMemoryStorage.delete order_id;;
  mret order.

Definition delete_order (order_id : string) : handler :=
  fun st =>
    match delete_order_body order_id st with
    | (Return order, st') => (Response (JsonOrder order) 200, st')
    | (Raise (ValueError e), st') =>
        (Response (JsonError (ValueError e)) 404, st')
    | (Raise (KeyError e), st') =>
        (Response (JsonError (KeyError e)) 404, st')
    | (Raise e, st') => (Unhandled (Escaped e), st')
    end.

(** The five routes, and the handler each one is bound to. *)
Inductive request : Type :=
  | POST_orders (data : pyval)
  | GET_order (order_id : string)
  | PUT_order (order_id : string) (data : pyval)
  | GET_orders (status customer_id : option string)
  | DELETE_order (order_id : string).

Definition handle (r : request) : handler :=
  match r with
  | POST_orders data => create_order data
  | GET_order order_id => get_order order_id
  | PUT_order order_id data => update_order order_id data
  | GET_orders status customer_id => list_orders status customer_id
  | DELETE_order order_id => delete_order order_id
  end.

(** The state after a sequence of requests, each served to its end. *)
Fixpoint serve (rs : list request) (st : state) : state :=
  match rs with
  | [] => st
  | r :: rs' => serve rs' (handle r st).2
  end.

(** The reply is a 200 or a 201. *)
Definition succeeded (r : reply) : bool :=
  match r with
  | Response _ code => (code =? 200)%nat || (code =? 201)%nat
  | Unhandled _ => false
  end.

End App.

(** * Vocabulary of the properties *)

(** What a call returns or raises, and the state it leaves. *)
Definition result_of {A} (m : M A) (st : state) : outcome A := (m st).1.
Definition state_after {A} (m : M A) (st : state) : state := (m st).2.

(** The record a reference points to, and the reference and record stored
    under an identifier. *)
Definition stored (st : state) (order_id : string) (order : loc) (d : pydict) : Prop :=
  _orders st !! order_id = Some order ∧ heap st !! order = Some d.

(** The status of the record behind a reference. *)
Definition status_of (st : state) (order : loc) : option pyval :=
  heap st !! order ≫= dict_get "status".

(** Every stored record has a status field. *)
Definition records_have_status (st : state) : Prop :=
  ∀ order_id order, _orders st !! order_id = Some order →
    is_Some (status_of st order).

Ltac unfold_M :=
  unfold result_of, state_after, mbind, M_bind, bind, mret, M_ret, ret, raise in *.

(** ** The rules of [add_order], as the data model words them *)

(** A non-empty string. *)
Definition nonempty_string (v : pyval) : Prop :=
  ∃ s, v = PyStr s ∧ s ≠ "".

(** A positive integer, in Python's sense of integer: an instance of
    [int] whose value is greater than zero. *)
Definition positive_integer (v : pyval) : Prop :=
  isinstance v TInt = true ∧ (0 < int_value v)%Z.

(** An item is a record ... *)
Definition is_record (item : pyval) : Prop :=
  ∃ d, item = PyDict d.

(** ... with both required fields ... *)
Definition has_both_fields (item : pyval) : Prop :=
  is_Some (dict_get "name" (dict_value item))
  ∧ is_Some (dict_get "quantity" (dict_value item)).

(** ... and a quantity that is a positive integer. *)
Definition quantity_positive (item : pyval) : Prop :=
  ∃ q, dict_get "quantity" (dict_value item) = Some q ∧ positive_integer q.

Definition valid_item (item : pyval) : Prop :=
  is_record item ∧ has_both_fields item ∧ quantity_positive item.

(** A non-empty list. *)
Definition nonempty_list (v : pyval) : Prop :=
  ∃ l, v = PyList l ∧ l ≠ [].

(** A non-empty list of valid items. *)
Definition valid_items (items : pyval) : Prop :=
  nonempty_list items ∧ Forall valid_item (list_value items).

(** The first rule an item breaks, if it breaks one. *)
Definition item_violation (item : pyval) : option value_error :=
  match item with
  | PyDict d =>
      match dict_get "name" d, dict_get "quantity" d with
      | Some _, Some q =>
          if isinstance q TInt && (0 <? int_value q)%Z then None
          else Some ItemQuantityNotPositive
      | _, _ => Some ItemMissingFields
      end
  | _ => Some ItemNotDict
  end.

Fixpoint first_violation (items : list pyval) : option value_error :=
  match items with
  | [] => None
  | item :: rest =>
      match item_violation item with
      | Some e => Some e
      | None => first_violation rest
      end
  end.

(** The record [add_order] builds. *)
Definition new_order (order_id items customer_id : pyval) : pydict :=
  [ ("order_id", order_id); ("items", items);
    ("customer_id", customer_id); ("status", PyStr "pending") ].

(** ** Sequences of calls *)

(** The five operations of the tracker, and the two storage operations
    that the HTTP layer and the tests apply to the tracker's storage. *)
Inductive call : Type :=
  | AddOrder (order_id items customer_id : pyval)
  | GetOrderById (order_id : pyval)
  | UpdateOrderStatus (order_id new_status : pyval)
  | ListAllOrders
  | ListOrdersByStatus (status : pyval)
  | StorageDelete (order_id : string)
  | StorageClear.

Definition is_update (c : call) : bool :=
  match c with UpdateOrderStatus _ _ => true | _ => false end.

Definition is_removal (c : call) : bool :=
  match c with StorageDelete _ | StorageClear => true | _ => false end.

(** The state a call leaves, whether it returns or raises. *)
Definition exec (c : call) (st : state) : state :=
  match c with
  | AddOrder order_id items customer_id =>
      state_after (add_order order_id items customer_id) st
  | GetOrderById order_id => state_after (get_order_by_id order_id) st
  | UpdateOrderStatus order_id new_status =>
      state_after (update_order_status order_id new_status) st
  | ListAllOrders => state_after list_all_orders st
  | ListOrdersByStatus status => state_after (list_orders_by_status status) st
  | StorageDelete order_id => state_after (InMemoryStorage.delete order_id) st
  | StorageClear => state_after InMemoryStorage.clear st
  end.

Fixpoint run (cs : list call) (st : state) : state :=
  match cs with
  | [] => st
  | c :: cs' => run cs' (exec c st)
  end.

(** What one call can do to the state. *)
Inductive effect (st : state) : call → state → Prop :=
  | effect_none c : effect st c st
  | effect_add order_id items customer_id k :
      order_id = PyStr k → k ≠ "" → _orders st !! k = None →
      effect st (AddOrder order_id items customer_id)
        (State (<[k := length (heap st)]> (_orders st))
               (heap st ++ [new_order order_id items customer_id]))
  | effect_update order_id k order s :
      order_id = PyStr k → s ∈ VALID_STATUSES → _orders st !! k = Some order →
      effect st (UpdateOrderStatus order_id (PyStr s))
        (State (_orders st)
               (alter (dict_set "status" (PyStr s)) order (heap st)))
  | effect_delete k :
      effect st (StorageDelete k) (State (delete k (_orders st)) (heap st))
  | effect_clear :
      effect st StorageClear (State ∅ (heap st)).

(** ** The shape of stored records *)

Definition ORDER_FIELDS : list string :=
  ["order_id"; "items"; "customer_id"; "status"].

(** A record as [add_order] builds it and [update_order_status] keeps it:
    the four fields, the identifier it is stored under, a status of the
    vocabulary. *)
Definition record_ok (order_id : string) (d : pydict) : Prop :=
  order_id ≠ ""
  ∧ dict_keys d = ORDER_FIELDS
  ∧ dict_get "order_id" d = Some (PyStr order_id)
  ∧ ∃ s, dict_get "status" d = Some (PyStr s) ∧ s ∈ VALID_STATUSES.

Definition store_ok (st : state) : Prop :=
  ∀ order_id order, _orders st !! order_id = Some order →
    ∃ d, heap st !! order = Some d ∧ record_ok order_id d.

(** ** The scenario of the specification *)

Definition widget : pyval :=
  PyList [PyDict [("name", PyStr "Widget"); ("quantity", PyInt 2)]].

Definition gadget : pyval :=
  PyList [PyDict [("name", PyStr "Gadget"); ("quantity", PyInt 1)]].

(** One order, pending. *)
Definition st_created : state :=
  run [AddOrder (PyStr "ORD001") widget (PyStr "CUST001")] empty_state.

(** Two orders, the first one shipped. *)
Definition st_shipped : state :=
  run [AddOrder (PyStr "ORD001") widget (PyStr "CUST001");
       AddOrder (PyStr "ORD002") gadget (PyStr "CUST002");
       UpdateOrderStatus (PyStr "ORD001") (PyStr "shipped")] empty_state.

(** ** Classes of values and references *)

(** A value without a hash: a list or a dict. *)
Definition unhashable (v : pyval) : Prop :=
  isinstance v TList = true ∨ isinstance v TDict = true.

(** The reference is held by the storage dictionary. *)
Definition is_stored (st : state) (order : loc) : Prop :=
  ∃ order_id, _orders st !! order_id = Some order.

(** The customer identifier of the record behind a reference. *)
Definition customer_of (st : state) (order : loc) : option pyval :=
  heap st !! order ≫= dict_get "customer_id".

(** * Lemmas *)

(** ** Dicts, equality and the guards *)

Lemma bind_eval {A B} (m : M A) (f : A → M B) (st : state) :
  (m ≫= f) st =
    match m st with
    | (Return a, st') => f a st'
    | (Raise e, st') => (Raise e, st')
    end.
Proof. done. Qed.

Section dict_lemmas.
Implicit Types (d : pydict) (k : string) (v : pyval).

Lemma dict_get_set_eq k v d : dict_get k (dict_set k v d) = Some v.
Proof.
  induction d as [|[k' v'] d IH]; simpl.
  - by rewrite decide_True.
  - destruct (decide (k = k')) as [->|Hne]; simpl.
    + by rewrite decide_True.
    + by rewrite decide_False.
Qed.

Lemma dict_get_set_ne k k' v d :
  k ≠ k' → dict_get k' (dict_set k v d) = dict_get k' d.
Proof.
  intros Hne. induction d as [|[k0 v0] d IH]; simpl.
  - by rewrite decide_False.
  - destruct (decide (k = k0)) as [->|Hne0]; simpl.
    + by rewrite !decide_False.
    + destruct (decide (k' = k0)); [done | apply IH].
Qed.

Lemma dict_keys_set k v d :
  is_Some (dict_get k d) → dict_keys (dict_set k v d) = dict_keys d.
Proof.
  unfold dict_keys. induction d as [|[k0 v0] d IH]; simpl.
  - by intros [? ?].
  - destruct (decide (k = k0)) as [->|Hne]; simpl; [done |].
    intros H. f_equal. by apply IH.
Qed.
End dict_lemmas.

(** A str is equal to a value only if the value is the same str. *)
Lemma py_eq_str (v : pyval) (s : string) :
  py_eq v (PyStr s) = true ↔ v = PyStr s.
Proof.
  destruct v as [|b|n|q|t|l|d]; simpl;
    try (split; [done | congruence]).
  rewrite bool_decide_eq_true. split; congruence.
Qed.

Lemma truthy_str (s : string) :
  negb (truthy (PyStr s)) || negb (isinstance (PyStr s) TStr)
  = bool_decide (s = "").
Proof. simpl. by destruct (bool_decide (s = "")). Qed.

(** ** Evaluation lemmas *)

Lemma guard_nonempty_string (v : pyval) :
  negb (truthy v) || negb (isinstance v TStr) = false ↔ nonempty_string v.
Proof.
  unfold nonempty_string. destruct v as [|b|n|q|s|l|d]; simpl;
    rewrite ?orb_true_r; try (split; [done | by intros (? & ? & ?)]).
  rewrite orb_false_r, negb_involutive, bool_decide_eq_false.
  split; [by eauto | by intros (? & [= ->] & ?)].
Qed.

Lemma guard_nonempty_list (v : pyval) :
  negb (truthy v) || negb (isinstance v TList) = false ↔ nonempty_list v.
Proof.
  unfold nonempty_list. destruct v as [|b|n|q|s|l|d]; simpl;
    rewrite ?orb_true_r; try (split; [done | by intros (? & ? & ?)]).
  rewrite orb_false_r, negb_involutive, bool_decide_eq_false.
  split; [by eauto | by intros (? & [= ->] & ?)].
Qed.

Lemma check_item_eval (item : pyval) (st : state) :
  check_item item st =
    (match item_violation item with
     | Some e => Raise (ValueError e)
     | None => Return ()
     end, st).
Proof.
  unfold check_item, item_violation, subscript, dict_contains.
  destruct item as [|b|n|q|s|l|d]; simpl; try done.
  destruct (dict_get "name" d) as [nm|] eqn:Hn; simpl; [| done].
  destruct (dict_get "quantity" d) as [q|] eqn:Hq; simpl; [| done].
  unfold_M. simpl. destruct q as [|b|n|q'|s|l|d']; simpl; try done.
  - by destruct b.
  - rewrite Z.ltb_antisym. by destruct (n <=? 0)%Z.
Qed.

Lemma for_each_check_item (items : list pyval) (st : state) :
  for_each items check_item st =
    (match first_violation items with
     | Some e => Raise (ValueError e)
     | None => Return ()
     end, st).
Proof.
  induction items as [|item rest IH]; simpl; [done |].
  unfold_M. rewrite check_item_eval.
  destruct (item_violation item); [done | apply IH].
Qed.

Lemma item_violation_None (item : pyval) :
  item_violation item = None ↔ valid_item item.
Proof.
  unfold item_violation, valid_item, is_record, has_both_fields,
    quantity_positive, positive_integer.
  destruct item as [|b|n|q|s|l|d]; simpl;
    try (split; [done | by intros [[? ?] _]]).
  destruct (dict_get "name" d) as [nm|]; simpl;
    [| split; [done | by intros (_ & [[? ?] _] & _)]].
  destruct (dict_get "quantity" d) as [q|]; simpl;
    [| split; [done | by intros (_ & [_ [? ?]] & _)]].
  destruct (isinstance q TInt) eqn:Hint; simpl.
  - destruct (0 <? int_value q)%Z eqn:Hpos.
    + apply Z.ltb_lt in Hpos. naive_solver.
    + apply Z.ltb_ge in Hpos. split; [done |].
      intros (_ & _ & q' & [= <-] & _ & ?). lia.
  - split; [done |]. intros (_ & _ & q' & [= <-] & ? & _). congruence.
Qed.

Lemma first_violation_None (items : list pyval) :
  first_violation items = None ↔ Forall valid_item items.
Proof.
  induction items as [|item rest IH]; simpl.
  - split; [by constructor | done].
  - rewrite Forall_cons, <- IH, <- item_violation_None.
    destruct (item_violation item); naive_solver.
Qed.

Lemma first_violation_app (pre : list pyval) (item : pyval) (post : list pyval) :
  Forall valid_item pre →
  first_violation (pre ++ item :: post) =
    match item_violation item with
    | Some e => Some e
    | None => first_violation post
    end.
Proof.
  induction 1 as [|x pre Hx _ IH]; simpl; [done |].
  apply item_violation_None in Hx. by rewrite Hx.
Qed.

Lemma add_order_eval (order_id items customer_id : pyval) (st : state) :
  add_order order_id items customer_id st =
    if negb (truthy order_id) || negb (isinstance order_id TStr) then
      (Raise (ValueError OrderIdRequired), st)
    else if negb (truthy customer_id) || negb (isinstance customer_id TStr) then
      (Raise (ValueError CustomerIdRequired), st)
    else if negb (truthy items) || negb (isinstance items TList) then
      (Raise (ValueError ItemsNotNonEmptyList), st)
    else match first_violation (list_value items) with
         | Some e => (Raise (ValueError e), st)
         | None =>
             if bool_decide (is_Some (_orders st !! str_value order_id)) then
               (Raise (ValueError (OrderAlreadyExists (str_value order_id))), st)
             else
               (Return (length (heap st)),
                State (<[str_value order_id := length (heap st)]> (_orders st))
                      (heap st ++ [new_order order_id items customer_id]))
         end.
Proof.
  unfold add_order.
  destruct (negb (truthy order_id) || negb (isinstance order_id TStr)); [done |].
  destruct (negb (truthy customer_id) || negb (isinstance customer_id TStr)); [done |].
  destruct (negb (truthy items) || negb (isinstance items TList)); [done |].
  unfold_M. rewrite for_each_check_item.
  destruct (first_violation (list_value items)); [done |].
  unfold InMemoryStorage.exists_. simpl.
  by destruct (bool_decide (is_Some (_orders st !! str_value order_id))).
Qed.

Lemma get_order_by_id_eval (order_id : pyval) (st : state) :
  get_order_by_id order_id st =
    if negb (truthy order_id) || negb (isinstance order_id TStr) then
      (Raise (ValueError OrderIdNotNonEmpty), st)
    else match _orders st !! str_value order_id with
         | None => (Raise (KeyError (OrderNotFound (str_value order_id))), st)
         | Some order => (Return order, st)
         end.
Proof.
  unfold get_order_by_id.
  destruct (negb (truthy order_id) || negb (isinstance order_id TStr)); [done |].
  unfold_M. unfold InMemoryStorage.get. simpl.
  by destruct (_orders st !! str_value order_id).
Qed.

(** [in_set] never touches the state. *)
Lemma in_set_state (v : pyval) (s : gset string) (st : state) :
  (in_set v s st).2 = st.
Proof. by destruct v. Qed.

Lemma in_set_str (x : string) (s : gset string) (st : state) :
  in_set (PyStr x) s st = (Return (bool_decide (x ∈ s)), st).
Proof. done. Qed.

(** A successful membership test means the value is a str of the set. *)
Lemma in_set_true (v : pyval) (s : gset string) (st : state) :
  (in_set v s st).1 = Return true → ∃ x, v = PyStr x ∧ x ∈ s.
Proof.
  destruct v as [|b|n|q|x|l|d]; simpl; try done.
  intros [= H%bool_decide_eq_true]. eauto.
Qed.

Lemma update_order_status_eval (order_id new_status : pyval) (st : state) :
  update_order_status order_id new_status st =
    if negb (truthy order_id) || negb (isinstance order_id TStr) then
      (Raise (ValueError OrderIdNotNonEmpty), st)
    else match in_set new_status VALID_STATUSES st with
         | (Raise e, _) => (Raise e, st)
         | (Return false, _) => (Raise (ValueError (InvalidStatus new_status)), st)
         | (Return true, _) =>
             match _orders st !! str_value order_id with
             | None =>
                 (Raise (KeyError (OrderNotFound (str_value order_id))), st)
             | Some order =>
                 (Return order,
                  State (<[str_value order_id := order]> (_orders st))
                        (alter (dict_set "status" new_status) order (heap st)))
             end
         end.
Proof.
  unfold update_order_status.
  destruct (negb (truthy order_id) || negb (isinstance order_id TStr)); [done |].
  unfold_M.
  pose proof (in_set_state new_status VALID_STATUSES st) as Hst.
  destruct (in_set new_status VALID_STATUSES st) as [[e|[|]] st0];
    simpl in Hst; subst st0; simpl; try done.
  unfold InMemoryStorage.get. simpl.
  by destruct (_orders st !! str_value order_id).
Qed.

Lemma comprehension_status (status : pyval) (st : state) (l : list loc) :
  (∀ order, order ∈ l → is_Some (status_of st order)) →
  comprehension l
    (fun order => s ← getitem order "status"; mret (py_eq s status)) st
  = (Return (List.filter
               (fun order =>
                  match status_of st order with
                  | Some s => py_eq s status
                  | None => false
                  end) l), st).
Proof.
  set (test := fun order : loc => _).
  assert (Htest : ∀ order s, status_of st order = Some s →
            test order st = (Return (py_eq s status), st)).
  { intros order s Hs. unfold test. rewrite bind_eval.
    unfold getitem. unfold status_of in Hs. by rewrite Hs. }
  induction l as [|order l IH]; intros Hall; simpl; [done |].
  destruct (Hall order) as [s Hs]; [by left |].
  rewrite !bind_eval, (Htest _ _ Hs), bind_eval, IH, Hs.
  - by destruct (py_eq s status).
  - intros o Ho. apply Hall. by right.
Qed.

Lemma list_orders_by_status_eval (status : string) (st : state) :
  records_have_status st →
  list_orders_by_status (PyStr status) st =
    if bool_decide (status ∈ VALID_STATUSES) then
      (Return (List.filter
                 (fun order =>
                    match status_of st order with
                    | Some s => py_eq s (PyStr status)
                    | None => false
                    end) (map_to_list (_orders st)).*2), st)
    else (Raise (ValueError (InvalidStatus (PyStr status))), st).
Proof.
  intros Hst. unfold list_orders_by_status. unfold_M.
  rewrite in_set_str.
  destruct (bool_decide (status ∈ VALID_STATUSES)); simpl; [| done].
  unfold InMemoryStorage.get_all. simpl.
  apply comprehension_status.
  intros order [[k o] [-> Hk]]%list_elem_of_fmap.
  apply elem_of_map_to_list in Hk. by apply (Hst k).
Qed.

Lemma comprehension_state {A} (test : A → M bool) (l : list A) (st : state) :
  (∀ x, (test x st).2 = st) → (comprehension l test st).2 = st.
Proof.
  intros Htest. induction l as [|x l IH]; simpl; [done |].
  rewrite bind_eval. specialize (Htest x).
  destruct (test x st) as [[e|b] st0]; simpl in Htest; subst st0; [done |].
  rewrite bind_eval.
  destruct (comprehension l test st) as [[e|r] st0]; simpl in IH; by subst st0.
Qed.

Lemma list_orders_by_status_state (status : pyval) (st : state) :
  state_after (list_orders_by_status status) st = st.
Proof.
  unfold state_after, list_orders_by_status. rewrite bind_eval.
  pose proof (in_set_state status VALID_STATUSES st) as Hst.
  destruct (in_set status VALID_STATUSES st) as [[e|[|]] st0];
    simpl in Hst; subst st0; simpl; try done.
  rewrite bind_eval. unfold InMemoryStorage.get_all.
  apply comprehension_state. intros order. rewrite bind_eval.
  unfold getitem. by destruct (heap st !! order ≫= dict_get "status").
Qed.

(** ** The effect of a call on the state *)

(** [add_order] either leaves the state as it is (and raises), or stores a
    new record, with the submitted values and status "pending", under an
    identifier that was free. *)
Lemma add_order_effect (order_id items customer_id : pyval) (st : state) :
  (state_after (add_order order_id items customer_id) st = st
   ∧ ∃ e, result_of (add_order order_id items customer_id) st
          = Raise (ValueError e))
  ∨ (∃ k, order_id = PyStr k ∧ k ≠ "" ∧ _orders st !! k = None
      ∧ result_of (add_order order_id items customer_id) st
        = Return (length (heap st))
      ∧ state_after (add_order order_id items customer_id) st
        = State (<[k := length (heap st)]> (_orders st))
                (heap st ++ [new_order order_id items customer_id])).
Proof.
  unfold state_after, result_of. rewrite add_order_eval.
  destruct (negb (truthy order_id) || negb (isinstance order_id TStr)) eqn:Hid;
    [left; eauto |].
  apply guard_nonempty_string in Hid as (k & -> & Hk).
  destruct (negb (truthy customer_id) || negb (isinstance customer_id TStr));
    [left; eauto |].
  destruct (negb (truthy items) || negb (isinstance items TList));
    [left; eauto |].
  destruct (first_violation (list_value items)); [left; eauto |].
  simpl. case_bool_decide as Hdup; [left; eauto |].
  right. exists k. repeat split; try done.
  by apply eq_None_not_Some.
Qed.

(** [update_order_status] either leaves the state as it is (and raises), or
    assigns a status of the vocabulary to the record stored under the
    identifier. *)
Lemma update_order_status_effect (order_id new_status : pyval) (st : state) :
  (state_after (update_order_status order_id new_status) st = st
   ∧ ∃ e, result_of (update_order_status order_id new_status) st = Raise e)
  ∨ (∃ k order s, order_id = PyStr k ∧ new_status = PyStr s
      ∧ s ∈ VALID_STATUSES ∧ _orders st !! k = Some order
      ∧ result_of (update_order_status order_id new_status) st = Return order
      ∧ state_after (update_order_status order_id new_status) st
        = State (_orders st)
                (alter (dict_set "status" new_status) order (heap st))).
Proof.
  unfold state_after, result_of. rewrite update_order_status_eval.
  destruct (negb (truthy order_id) || negb (isinstance order_id TStr)) eqn:Hid;
    [left; eauto |].
  apply guard_nonempty_string in Hid as (k & -> & Hk).
  pose proof (in_set_true new_status VALID_STATUSES st) as Hin.
  destruct (in_set new_status VALID_STATUSES st) as [[e|[|]] st0];
    [left; eauto | | left; eauto].
  destruct Hin as (s & -> & Hs); [done |]. simpl.
  destruct (_orders st !! k) as [order|] eqn:Hget; [| left; eauto].
  right. exists k, order, s. repeat split; try done.
  simpl. by rewrite insert_id.
Qed.

Lemma exec_effect (c : call) (st : state) : effect st c (exec c st).
Proof.
  destruct c as [oid items cid|oid|oid ns| |status|k|]; simpl.
  - destruct (add_order_effect oid items cid st)
      as [[-> _]|(k & -> & Hne & Hk & _ & ->)]; by constructor.
  - unfold state_after. rewrite get_order_by_id_eval.
    destruct (_ || _); [constructor |].
    destruct (_orders st !! _); constructor.
  - destruct (update_order_status_effect oid ns st)
      as [[-> _]|(k & order & s & -> & -> & Hs & Hk & _ & ->)];
      [constructor | by econstructor].
  - constructor.
  - rewrite list_orders_by_status_state. constructor.
  - constructor.
  - constructor.
Qed.

Lemma record_ok_new (k : string) (items customer_id : pyval) :
  k ≠ "" → record_ok k (new_order (PyStr k) items customer_id).
Proof.
  intros Hk. repeat split; [done |].
  exists "pending". split; [done | set_solver].
Qed.

Lemma record_ok_set_status (k s : string) (d : pydict) :
  s ∈ VALID_STATUSES → record_ok k d →
  record_ok k (dict_set "status" (PyStr s) d).
Proof.
  intros Hs (Hne & Hkeys & Hid & s0 & Hst & _). repeat split.
  - done.
  - rewrite dict_keys_set; eauto.
  - by rewrite dict_get_set_ne.
  - exists s. by rewrite dict_get_set_eq.
Qed.

Lemma effect_store_ok (st : state) (c : call) (st' : state) :
  effect st c st' → store_ok st → store_ok st'.
Proof.
  intros Heff Hok.
  destruct Heff as [c|oid items cid k -> Hne0 Hfree|oid k order s -> Hs Hk|k|];
    intros k' o' Hk'; simpl in *.
  - by apply Hok.
  - destruct (decide (k = k')) as [<-|Hne].
    + rewrite lookup_insert_eq in Hk'. injection Hk' as <-.
      eexists. split; [by apply list_lookup_middle | by apply record_ok_new].
    + rewrite lookup_insert_ne in Hk' by done.
      destruct (Hok _ _ Hk') as (d & Hd & Hrec).
      exists d. split; [by apply lookup_app_l_Some | done].
  - destruct (Hok _ _ Hk') as (d & Hd & Hrec).
    destruct (decide (order = o')) as [->|Hne].
    + exists (dict_set "status" (PyStr s) d). split.
      * by rewrite list_lookup_alter_eq, Hd.
      * by apply record_ok_set_status.
    + exists d. split; [by rewrite list_lookup_alter_ne | done].
  - apply lookup_delete_Some in Hk' as [_ Hk']. by apply Hok.
  - by rewrite lookup_empty in Hk'.
Qed.

Lemma run_store_ok (cs : list call) (st : state) :
  store_ok st → store_ok (run cs st).
Proof.
  revert st. induction cs as [|c cs IH]; intros st Hok; simpl; [done |].
  apply IH. eapply effect_store_ok; [apply exec_effect | done].
Qed.

Lemma empty_store_ok : store_ok empty_state.
Proof. intros k o Hk. simpl in Hk. by rewrite lookup_empty in Hk. Qed.

Lemma store_ok_have_status (st : state) :
  store_ok st → records_have_status st.
Proof.
  intros Hok k o Hk. destruct (Hok _ _ Hk) as (d & Hd & _ & _ & _ & s & Hs & _).
  unfold status_of. rewrite Hd. simpl. by rewrite Hs.
Qed.

(** After any sequence of calls from the empty store, every stored
    record has a status, and is stored under a non-empty identifier. *)
Lemma run_records_have_status (cs : list call) :
  records_have_status (run cs empty_state).
Proof. apply store_ok_have_status, run_store_ok, empty_store_ok. Qed.

Lemma run_ids_nonempty (cs : list call) (order_id : string) (order : loc) :
  _orders (run cs empty_state) !! order_id = Some order → order_id ≠ "".
Proof.
  intros Hk.
  by destruct (run_store_ok cs empty_state empty_store_ok _ _ Hk)
    as (d & _ & Hne & _).
Qed.

(** The record that a successful [add_order] leaves behind its result. *)
Lemma add_order_returns (order_id items customer_id : pyval)
    (st : state) (order : loc) :
  result_of (add_order order_id items customer_id) st = Return order →
  order = length (heap st)
  ∧ _orders st !! str_value order_id = None
  ∧ state_after (add_order order_id items customer_id) st
    = State (<[str_value order_id := order]> (_orders st))
            (heap st ++ [new_order order_id items customer_id]).
Proof.
  intros Hres.
  destruct (add_order_effect order_id items customer_id st)
    as [[_ [e He]]|(k & -> & _ & Hk & Hr & Hst)]; [congruence |].
  rewrite Hr in Hres. injection Hres as <-. by rewrite Hst.
Qed.

(** ** The rules of [add_order] *)

Lemma guard_not_nonempty_string (v : pyval) :
  negb (truthy v) || negb (isinstance v TStr) = true ↔ ¬ nonempty_string v.
Proof. rewrite <- guard_nonempty_string. by destruct (_ || _). Qed.

Lemma guard_not_nonempty_list (v : pyval) :
  negb (truthy v) || negb (isinstance v TList) = true ↔ ¬ nonempty_list v.
Proof. rewrite <- guard_nonempty_list. by destruct (_ || _). Qed.

Lemma item_violation_not_record (item : pyval) :
  ¬ is_record item → item_violation item = Some ItemNotDict.
Proof.
  intros Hrec. destruct item as [|b|n|q|s|l|d]; try done.
  destruct Hrec. by exists d.
Qed.

Lemma item_violation_missing_fields (item : pyval) :
  is_record item → ¬ has_both_fields item →
  item_violation item = Some ItemMissingFields.
Proof.
  intros [d ->] Hfields. unfold has_both_fields in Hfields. simpl in *.
  destruct (dict_get "name" d) as [nm|]; [| done].
  destruct (dict_get "quantity" d) as [q|]; [| done].
  destruct Hfields. by split.
Qed.

Lemma item_violation_quantity (item : pyval) :
  is_record item → has_both_fields item → ¬ quantity_positive item →
  item_violation item = Some ItemQuantityNotPositive.
Proof.
  intros [d ->] [[nm Hn] [q Hq]] Hpos.
  unfold quantity_positive, positive_integer in Hpos. simpl in *.
  rewrite Hn, Hq.
  destruct (isinstance q TInt) eqn:Hint; [| done].
  destruct (0 <? int_value q)%Z eqn:Hlt; [| done].
  destruct Hpos. exists q. by apply Z.ltb_lt in Hlt.
Qed.

(** ** What a call changes in a stored record *)

Lemma effect_heap (st : state) (c : call) (st' : state) (l : loc) (d : pydict) :
  effect st c st' → heap st !! l = Some d →
  ∃ d', heap st' !! l = Some d'
        ∧ (∀ field, field ≠ "status" → dict_get field d' = dict_get field d)
        ∧ (is_update c = false → d' = d).
Proof.
  intros Heff Hd.
  destruct Heff as [c|oid items cid k -> Hne0 Hfree|oid k order s -> Hs Hk|k|];
    simpl; try (by exists d).
  - exists d. split; [by apply lookup_app_l_Some | done].
  - destruct (decide (order = l)) as [->|Hne].
    + exists (dict_set "status" (PyStr s) d). split.
      * by rewrite list_lookup_alter_eq, Hd.
      * split; [| done]. intros field Hfield. by apply dict_get_set_ne.
    + exists d. split; [by rewrite list_lookup_alter_ne | done].
Qed.

Lemma run_heap (cs : list call) (st : state) (l : loc) (d : pydict) :
  heap st !! l = Some d →
  ∃ d', heap (run cs st) !! l = Some d'
        ∧ ∀ field, field ≠ "status" → dict_get field d' = dict_get field d.
Proof.
  revert st d. induction cs as [|c cs IH]; intros st d Hd; simpl.
  - by exists d.
  - destruct (effect_heap st c _ l d (exec_effect c st) Hd)
      as (d1 & Hd1 & Hsame1 & _).
    destruct (IH _ _ Hd1) as (d2 & Hd2 & Hsame2).
    exists d2. split; [done |].
    intros field Hfield. by rewrite Hsame2, Hsame1.
Qed.

Lemma effect_stored (st : state) (c : call) (st' : state)
    (k : string) (l : loc) (d : pydict) :
  effect st c st' → is_update c = false → stored st k l d →
  stored st' k l d ∨ (is_removal c = true ∧ _orders st' !! k = None).
Proof.
  intros Heff Hupd [Hk Hd].
  destruct Heff as [c|oid items cid k0 -> Hne0 Hfree|oid k0 order s -> Hs Hk0|k0|];
    simpl in *; try done.
  - by left.
  - left. split; simpl; [| by apply lookup_app_l_Some].
    rewrite lookup_insert_ne; [done | congruence].
  - destruct (decide (k0 = k)) as [->|Hne].
    + right. split; [done | apply lookup_delete_eq].
    + left. split; simpl; [by rewrite lookup_delete_ne | done].
  - right. split; [done | apply lookup_empty].
Qed.

Lemma run_orders (cs : list call) (st : state) (k : string) (l : loc) :
  Forall (fun c => is_removal c = false) cs →
  _orders st !! k = Some l → _orders (run cs st) !! k = Some l.
Proof.
  intros Hcs. revert st.
  induction Hcs as [|c cs Hc _ IH]; intros st Hk; simpl; [done |].
  apply IH.
  destruct (exec_effect c st)
    as [c|oid items cid k0 -> Hne0 Hfree|oid k0 order s -> Hs Hk0|k0|];
    simpl in *; try done.
  rewrite lookup_insert_ne; [done | congruence].
Qed.

(** * Properties of the tracker *)

(** C1: for a non-empty string identifier that is not stored yet, a
    non-empty string customer identifier and a non-empty list of valid
    items, [add_order] followed by [get_order_by_id] with the same
    identifier returns the record that was created: its status is
    "pending" and its identifier, items and customer identifier are the
    submitted values. *)
Theorem add_then_get_round_trip
    (st : state) (order_id customer_id : string) (items : pyval) :
  order_id ≠ "" → _orders st !! order_id = None →
  customer_id ≠ "" → valid_items items →
  ∃ order,
    result_of (add_order (PyStr order_id) items (PyStr customer_id)) st
    = Return order
    ∧ result_of (get_order_by_id (PyStr order_id))
        (state_after (add_order (PyStr order_id) items (PyStr customer_id)) st)
      = Return order
    ∧ heap (state_after (get_order_by_id (PyStr order_id))
              (state_after
                 (add_order (PyStr order_id) items (PyStr customer_id)) st))
        !! order
      = Some [ ("order_id", PyStr order_id);
               ("items", items);
               ("customer_id", PyStr customer_id);
               ("status", PyStr "pending") ].
Proof.
  intros Hid Hfree Hcid [Hlist Hall%first_violation_None].
  unfold result_of, state_after.
  rewrite add_order_eval, !truthy_str, !bool_decide_eq_false_2 by done.
  apply guard_nonempty_list in Hlist. rewrite Hlist, Hall. simpl.
  rewrite Hfree, bool_decide_eq_false_2 by (by intros [? ?]). simpl.
  rewrite get_order_by_id_eval, truthy_str, bool_decide_eq_false_2 by done.
  simpl. rewrite lookup_insert_eq. simpl.
  eexists. repeat split. by apply list_lookup_middle.
Qed.

(** On a string identifier and a string status, the types the docstring
    gives, [update_order_status] raises a [ValueError] when the identifier
    is empty or the new status is outside the vocabulary, the not-found
    [KeyError] when no order is stored under the identifier, and otherwise
    assigns the new status to the stored record and returns that record.
    Whenever it raises a [ValueError] the state, and so every stored
    record, is unchanged. *)
Theorem update_order_status_cases (st : state) (order_id new_status : string) :
  let r := update_order_status (PyStr order_id) (PyStr new_status) st in
  (order_id = "" → r = (Raise (ValueError OrderIdNotNonEmpty), st))
  ∧ (order_id ≠ "" → new_status ∉ VALID_STATUSES →
       r = (Raise (ValueError (InvalidStatus (PyStr new_status))), st))
  ∧ (order_id ≠ "" → new_status ∈ VALID_STATUSES →
     _orders st !! order_id = None →
       r = (Raise (KeyError (OrderNotFound order_id)), st))
  ∧ (order_id ≠ "" → new_status ∈ VALID_STATUSES →
     ∀ order d, stored st order_id order d →
       r.1 = Return order
       ∧ _orders r.2 = _orders st
       ∧ heap r.2 !! order = Some (dict_set "status" (PyStr new_status) d)
       ∧ dict_get "status" (dict_set "status" (PyStr new_status) d)
         = Some (PyStr new_status))
  ∧ (∀ e, r.1 = Raise (ValueError e) → r.2 = st).
Proof.
  intros r. subst r.
  rewrite update_order_status_eval, truthy_str, in_set_str. simpl str_value.
  case_bool_decide as Hid; [by repeat split |].
  case_bool_decide as Hs; [| by repeat split].
  destruct (_orders st !! order_id) as [order|] eqn:Hget;
    [| unfold stored; naive_solver ].
  split; [done |]. split; [done |]. split; [done |]. split; [| done].
  intros _ _ o d [Ho Hd]. rewrite Hget in Ho. injection Ho as <-.
  simpl. split; [done |]. split; [by rewrite insert_id |].
  split; [by rewrite list_lookup_alter_eq, Hd | apply dict_get_set_eq].
Qed.

(** C2: a new status need not be a string.  The handler [update_order]
    passes on whatever non-empty JSON value the body holds under "status",
    and [new_status not in VALID_STATUSES] hashes it before comparing it.
    With ORD001 stored and the status the list ["shipped"], which is
    outside the vocabulary, the call raises [TypeError]: no [ValueError],
    no [KeyError], no update.  A string outside the vocabulary gets the
    [ValueError] in the same state, and through the handler the
    [TypeError] is caught by neither [except] clause and escapes where the
    handler's docstring promises a 400. *)
Theorem update_order_status_list_status :
  update_order_status (PyStr "ORD001") (PyList [PyStr "shipped"]) st_created
  = (Raise (TypeError "unhashable type: 'list'"), st_created)
  ∧ (∀ e, result_of (update_order_status (PyStr "ORD001")
                       (PyList [PyStr "shipped"])) st_created
          ≠ Raise (ValueError e))
  ∧ (∀ e, result_of (update_order_status (PyStr "ORD001")
                       (PyList [PyStr "shipped"])) st_created
          ≠ Raise (KeyError e))
  ∧ (∀ order, result_of (update_order_status (PyStr "ORD001")
                           (PyList [PyStr "shipped"])) st_created
              ≠ Return order)
  ∧ update_order_status (PyStr "ORD001") (PyStr "flying") st_created
    = (Raise (ValueError (InvalidStatus (PyStr "flying"))), st_created)
  ∧ App.update_order "ORD001"
      (PyDict [("status", PyList [PyStr "shipped"])]) st_created
    = (App.Unhandled (App.Escaped (TypeError "unhashable type: 'list'")),
       st_created).
Proof.
  split; [reflexivity |].
  split; [intros e; discriminate |].
  split; [intros e; discriminate |].
  split; [intros order; discriminate |].
  split; reflexivity.
Qed.

(** C3: [add_order] checks, in this order, that the identifier is a
    non-empty string, that the customer identifier is a non-empty string,
    that the items are a non-empty list whose every element is a record
    with the name and quantity fields and a positive integer quantity, and
    that the identifier is not stored yet.  It raises the [ValueError] of
    the first rule that is broken (for the items: of the first rule the
    first offending item breaks) whatever the later arguments are, and
    leaves the state as it was. *)
Theorem add_order_checks_in_order
    (st : state) (order_id items customer_id : pyval) :
  let r := add_order order_id items customer_id st in
  (¬ nonempty_string order_id →
     r = (Raise (ValueError OrderIdRequired), st))
  ∧ (nonempty_string order_id → ¬ nonempty_string customer_id →
       r = (Raise (ValueError CustomerIdRequired), st))
  ∧ (nonempty_string order_id → nonempty_string customer_id →
     ¬ nonempty_list items →
       r = (Raise (ValueError ItemsNotNonEmptyList), st))
  ∧ (nonempty_string order_id → nonempty_string customer_id →
     nonempty_list items →
     ∀ (pre : list pyval) (item : pyval) (post : list pyval),
       list_value items = (pre ++ item :: post)%list → Forall valid_item pre →
       (¬ is_record item → r = (Raise (ValueError ItemNotDict), st))
       ∧ (is_record item → ¬ has_both_fields item →
            r = (Raise (ValueError ItemMissingFields), st))
       ∧ (is_record item → has_both_fields item → ¬ quantity_positive item →
            r = (Raise (ValueError ItemQuantityNotPositive), st)))
  ∧ (nonempty_string order_id → nonempty_string customer_id →
     valid_items items → is_Some (_orders st !! str_value order_id) →
       r = (Raise (ValueError (OrderAlreadyExists (str_value order_id))), st))
  ∧ (nonempty_string order_id → nonempty_string customer_id →
     valid_items items → _orders st !! str_value order_id = None →
       ∃ order, r.1 = Return order).
Proof.
  intros r. subst r. rewrite add_order_eval.
  destruct (negb (truthy order_id) || negb (isinstance order_id TStr)) eqn:Hid.
  { apply guard_not_nonempty_string in Hid. by repeat split. }
  apply guard_nonempty_string in Hid.
  destruct (negb (truthy customer_id) || negb (isinstance customer_id TStr))
    eqn:Hcid.
  { apply guard_not_nonempty_string in Hcid. by repeat split. }
  apply guard_nonempty_string in Hcid.
  destruct (negb (truthy items) || negb (isinstance items TList)) eqn:Hitems.
  { apply guard_not_nonempty_list in Hitems.
    repeat split; try done; by intros _ _ [? _]. }
  apply guard_nonempty_list in Hitems.
  split; [done |]. split; [done |]. split; [done |]. split.
  - intros _ _ _ pre item post -> Hpre.
    rewrite (first_violation_app _ _ _ Hpre). repeat split.
    + intros H. by rewrite (item_violation_not_record _ H).
    + intros H1 H2. by rewrite (item_violation_missing_fields _ H1 H2).
    + intros H1 H2 H3. by rewrite (item_violation_quantity _ H1 H2 H3).
  - split.
    + intros _ _ [_ Hall%first_violation_None] Hdup. rewrite Hall.
      by rewrite bool_decide_eq_true_2.
    + intros _ _ [_ Hall%first_violation_None] Hfree. rewrite Hall, Hfree.
      rewrite bool_decide_eq_false_2 by (by intros [? ?]). by eexists.
Qed.

(** C4: when an order is stored under an identifier, [add_order] with
    that identifier raises a [ValueError] whatever the items and the
    customer identifier are, and the store is left exactly as it was, the
    existing record included. *)
Theorem add_order_duplicate_rejected
    (st : state) (order_id : string) (items customer_id : pyval) (order : loc) :
  _orders st !! order_id = Some order →
  ∃ e, add_order (PyStr order_id) items customer_id st
       = (Raise (ValueError e), st).
Proof.
  intros Hdup. rewrite add_order_eval. simpl str_value.
  destruct (_ || _); [by eexists |].
  destruct (_ || _); [by eexists |].
  destruct (_ || _); [by eexists |].
  destruct (first_violation _); [by eexists |].
  rewrite Hdup, bool_decide_eq_true_2 by eauto. by eexists.
Qed.

(** C5: in every state, [list_orders_by_status] raises a [ValueError] for
    a status outside the vocabulary; for a status of the vocabulary, in a
    store whose records all have a status, it returns exactly the stored
    orders whose status is the given one (each returned order is stored
    and matches, each stored order that matches is returned), hence the
    empty list when none matches.  The state is unchanged. *)
Theorem list_orders_by_status_exact (st : state) (status : string) :
  (status ∉ VALID_STATUSES →
     list_orders_by_status (PyStr status) st
     = (Raise (ValueError (InvalidStatus (PyStr status))), st))
  ∧ (status ∈ VALID_STATUSES → records_have_status st →
     ∃ result,
       list_orders_by_status (PyStr status) st = (Return result, st)
       ∧ (∀ order, order ∈ result ↔
            (∃ order_id, _orders st !! order_id = Some order)
            ∧ status_of st order = Some (PyStr status))
       ∧ ((∀ order_id order, _orders st !! order_id = Some order →
             status_of st order ≠ Some (PyStr status)) →
          result = [])).
Proof.
  split.
  { intros Hs. unfold list_orders_by_status.
    by rewrite bind_eval, in_set_str, bool_decide_eq_false_2. }
  intros Hs Hst.
  rewrite list_orders_by_status_eval, bool_decide_eq_true_2 by done.
  eexists. split; [done |].
  assert (Hmem : ∀ order,
    order ∈ List.filter
      (fun order => match status_of st order with
                    | Some s => py_eq s (PyStr status)
                    | None => false
                    end) (map_to_list (_orders st)).*2
    ↔ (∃ order_id, _orders st !! order_id = Some order)
      ∧ status_of st order = Some (PyStr status)).
  { intros order.
    rewrite list_elem_of_In, filter_In, <- list_elem_of_In, list_elem_of_fmap.
    split.
    - intros [([k o] & -> & Hk%elem_of_map_to_list) Heq]. simpl in *.
      split; [by exists k |].
      destruct (status_of st o) as [s|]; [| done].
      by apply py_eq_str in Heq as ->.
    - intros [[k Hk] Hs']. split.
      + exists (k, order). split; [done | by apply elem_of_map_to_list].
      + rewrite Hs'. by apply py_eq_str. }
  split; [done |]. intros Hnone.
  apply elem_of_nil_inv. intros order [[k Hk] Hs']%Hmem.
  by apply (Hnone k order).
Qed.

(** C6: [get_order_by_id] raises the validation error exactly for the
    empty identifier, the not-found error exactly for a non-empty
    identifier that storage does not hold, and otherwise returns the stored
    record; it leaves the state as it was.  The storage's [get] always
    returns: the reference held under the key, or [None]. *)
Theorem get_order_by_id_cases (st : state) (order_id : string) :
  ((∃ e, result_of (get_order_by_id (PyStr order_id)) st = Raise e
         ∧ is_validation_error e) ↔ order_id = "")
  ∧ ((∃ e, result_of (get_order_by_id (PyStr order_id)) st = Raise e
           ∧ is_not_found_error e)
     ↔ order_id ≠ "" ∧ _orders st !! order_id = None)
  ∧ (∀ order, order_id ≠ "" ∧ _orders st !! order_id = Some order →
       result_of (get_order_by_id (PyStr order_id)) st = Return order)
  ∧ state_after (get_order_by_id (PyStr order_id)) st = st
  ∧ (∀ key, InMemoryStorage.get key st = (Return (_orders st !! key), st)).
Proof.
  unfold get_order_by_id. rewrite truthy_str.
  unfold_M. unfold InMemoryStorage.get. simpl.
  case_bool_decide as Hid; simpl;
    [| destruct (_orders st !! order_id) as [order|] eqn:Hget; simpl ];
    unfold is_validation_error, is_not_found_error;
    repeat split; try naive_solver.
Qed.

(** C7: after any sequence of calls from the empty store, every stored
    order has a status of the vocabulary (pending, shipped, delivered,
    cancelled); and the record a successful [add_order] creates, in any
    state, has status "pending". *)
Theorem status_always_in_vocabulary :
  (∀ (cs : list call) (order_id : string) (order : loc),
     _orders (run cs empty_state) !! order_id = Some order →
     ∃ d s, heap (run cs empty_state) !! order = Some d
            ∧ dict_get "status" d = Some (PyStr s)
            ∧ s ∈ VALID_STATUSES)
  ∧ (∀ (st : state) (order_id items customer_id : pyval) (order : loc),
       result_of (add_order order_id items customer_id) st = Return order →
       ∃ d, heap (state_after (add_order order_id items customer_id) st)
              !! order = Some d
            ∧ dict_get "status" d = Some (PyStr "pending")).
Proof.
  split.
  - intros cs k o Hk.
    destruct (run_store_ok cs empty_state empty_store_ok _ _ Hk)
      as (d & Hd & _ & _ & _ & s & Hs & Hin).
    by exists d, s.
  - intros st oid items cid o Hres.
    apply add_order_returns in Hres as (-> & _ & ->). simpl.
    eexists. split; [by apply list_lookup_middle | done].
Qed.

(** C8: a successful [update_order_status] changes the status field of the
    record and nothing else in the state; whatever calls follow its creation,
    a record keeps the identifier, the items and the customer identifier it
    was created with, and stays stored under its identifier until a deletion;
    and a call other than [update_order_status] leaves every stored record
    as it is (a deletion can only remove it). *)
Theorem only_status_changes_after_creation :
  (∀ (st : state) (order_id new_status : pyval) (order : loc) (d : pydict),
     result_of (update_order_status order_id new_status) st = Return order →
     heap st !! order = Some d →
     _orders (state_after (update_order_status order_id new_status) st)
     = _orders st
     ∧ heap (state_after (update_order_status order_id new_status) st) !! order
       = Some (dict_set "status" new_status d)
     ∧ (∀ field, field ≠ "status" →
          dict_get field (dict_set "status" new_status d) = dict_get field d)
     ∧ (∀ other, other ≠ order →
          heap (state_after (update_order_status order_id new_status) st)
            !! other
          = heap st !! other))
  ∧ (∀ (st : state) (order_id items customer_id : pyval) (order : loc)
       (cs : list call),
       result_of (add_order order_id items customer_id) st = Return order →
       (∃ d, heap (run cs (state_after
                             (add_order order_id items customer_id) st))
               !! order = Some d
             ∧ dict_get "order_id" d = Some order_id
             ∧ dict_get "items" d = Some items
             ∧ dict_get "customer_id" d = Some customer_id)
       ∧ (Forall (fun c => is_removal c = false) cs →
          _orders (run cs (state_after
                            (add_order order_id items customer_id) st))
            !! str_value order_id = Some order))
  ∧ (∀ (st : state) (c : call) (order_id : string) (order : loc) (d : pydict),
       is_update c = false → stored st order_id order d →
       stored (exec c st) order_id order d
       ∨ (is_removal c = true ∧ _orders (exec c st) !! order_id = None)).
Proof.
  split; [| split].
  - intros st oid ns order d Hres Hd.
    destruct (update_order_status_effect oid ns st)
      as [[_ [e He]]|(k & o & s & -> & -> & Hs & Hk & Hr & ->)];
      [congruence |].
    rewrite Hr in Hres. injection Hres as ->. simpl. repeat split.
    + by rewrite list_lookup_alter_eq, Hd.
    + intros field Hfield. by apply dict_get_set_ne.
    + intros other Hne. by apply list_lookup_alter_ne.
  - intros st oid items cid order cs Hres.
    apply add_order_returns in Hres as (-> & Hfree & ->). split.
    + destruct (run_heap cs
                  (State (<[str_value oid := length (heap st)]> (_orders st))
                         (heap st ++ [new_order oid items cid]))
                  (length (heap st)) (new_order oid items cid))
        as (d & Hd & Hsame).
      { simpl. by apply list_lookup_middle. }
      exists d. split; [done |]. by rewrite !Hsame.
    + intros Hcs. apply run_orders; [done |]. simpl. apply lookup_insert_eq.
  - intros st c k order d Hupd Hst.
    by eapply effect_stored; [apply exec_effect | |].
Qed.

(** C9: in a state that stores an order under a (non-empty) identifier,
    the storage's [delete] returns the stored record and removes the
    entry, so that [get_order_by_id] with the same identifier then raises
    the not-found [KeyError]; for an identifier that is not stored,
    [delete] returns [None] and changes nothing. *)
Theorem delete_then_get_not_found (st : state) (order_id : string) :
  (∀ order, _orders st !! order_id = Some order →
     result_of (InMemoryStorage.delete order_id) st = Return (Some order)
     ∧ _orders (state_after (InMemoryStorage.delete order_id) st) !! order_id
       = None
     ∧ heap (state_after (InMemoryStorage.delete order_id) st) = heap st
     ∧ (order_id ≠ "" →
        get_order_by_id (PyStr order_id)
          (state_after (InMemoryStorage.delete order_id) st)
        = (Raise (KeyError (OrderNotFound order_id)),
           state_after (InMemoryStorage.delete order_id) st)))
  ∧ (_orders st !! order_id = None →
     InMemoryStorage.delete order_id st = (Return None, st)).
Proof.
  unfold result_of, state_after, InMemoryStorage.delete. simpl. split.
  - intros order Hget. rewrite Hget. repeat split.
    + apply lookup_delete_eq.
    + intros Hid.
      rewrite get_order_by_id_eval, truthy_str, bool_decide_eq_false_2 by done.
      simpl. by rewrite lookup_delete_eq.
  - intros Hnone. rewrite Hnone, delete_id by done. by destruct st.
Qed.

(** C10: after any sequence of calls from the empty store, every record
    is stored under the key equal to its own [order_id] field, and has
    exactly the four fields order_id, items, customer_id and status. *)
Theorem stored_under_own_id_with_four_fields
    (cs : list call) (order_id : string) (order : loc) :
  _orders (run cs empty_state) !! order_id = Some order →
  ∃ d, heap (run cs empty_state) !! order = Some d
       ∧ dict_get "order_id" d = Some (PyStr order_id)
       ∧ dict_keys d = ["order_id"; "items"; "customer_id"; "status"].
Proof.
  intros Hk.
  destruct (run_store_ok cs empty_state empty_store_ok _ _ Hk)
    as (d & Hd & _ & Hkeys & Hid & _).
  by exists d.
Qed.

(** * Arguments of other classes *)

(** The guard on the identifier rejects every value that is not a
    non-empty string, [None] and numbers included. *)
Lemma get_order_by_id_not_nonempty_string (order_id : pyval) (st : state) :
  ¬ nonempty_string order_id →
  get_order_by_id order_id st = (Raise (ValueError OrderIdNotNonEmpty), st).
Proof.
  intros Hid%guard_not_nonempty_string.
  by rewrite get_order_by_id_eval, Hid.
Qed.

(** A list cannot be looked up in the set of statuses: the membership
    test raises [TypeError] before any status is compared. *)
Lemma update_order_status_unhashable (order_id : string) (l : list pyval)
    (st : state) :
  order_id ≠ "" →
  update_order_status (PyStr order_id) (PyList l) st
  = (Raise (TypeError "unhashable type: 'list'"), st).
Proof.
  intros Hid.
  by rewrite update_order_status_eval, truthy_str, bool_decide_eq_false_2.
Qed.

Lemma list_orders_by_status_unhashable (l : list pyval) (st : state) :
  list_orders_by_status (PyList l) st
  = (Raise (TypeError "unhashable type: 'list'"), st).
Proof. done. Qed.

(** * The scenario of the specification, and instances of the theorems *)

Example scenario_create :
  add_order (PyStr "ORD001")
            (PyList [PyDict [("name", PyStr "Widget"); ("quantity", PyInt 2)]])
            (PyStr "CUST001") empty_state
  = (Return 0, State {[ "ORD001" := 0 ]}
       [[ ("order_id", PyStr "ORD001");
          ("items", PyList [PyDict [("name", PyStr "Widget"); ("quantity", PyInt 2)]]);
          ("customer_id", PyStr "CUST001");
          ("status", PyStr "pending") ]]).
Proof. vm_compute. reflexivity. Qed.

Example scenario_update :
  update_order_status (PyStr "ORD001") (PyStr "shipped") st_created
  = (Return 0,
     State {[ "ORD001" := 0 ]}
       [[ ("order_id", PyStr "ORD001"); ("items", widget);
          ("customer_id", PyStr "CUST001"); ("status", PyStr "shipped") ]]).
Proof. vm_compute. reflexivity. Qed.

Example scenario_list :
  result_of (list_orders_by_status (PyStr "shipped")) st_shipped = Return [0].
Proof. vm_compute. reflexivity. Qed.

Example scenario_duplicate :
  add_order (PyStr "ORD001") gadget (PyStr "CUST002") st_created
  = (Raise (ValueError (OrderAlreadyExists "ORD001")), st_created).
Proof. vm_compute. reflexivity. Qed.

Example quantity_zero_rejected :
  result_of (add_order (PyStr "ORD001")
               (PyList [PyDict [("name", PyStr "Widget"); ("quantity", PyInt 0)]])
               (PyStr "CUST001")) empty_state
  = Raise (ValueError ItemQuantityNotPositive).
Proof. vm_compute. reflexivity. Qed.

Example quantity_float_rejected :
  result_of (add_order (PyStr "ORD001")
               (PyList [PyDict [("name", PyStr "Widget");
                                ("quantity", PyFloat (5 # 2))]])
               (PyStr "CUST001")) empty_state
  = Raise (ValueError ItemQuantityNotPositive).
Proof. vm_compute. reflexivity. Qed.

Example item_without_quantity_rejected :
  result_of (add_order (PyStr "ORD001")
               (PyList [PyDict [("name", PyStr "Widget")]])
               (PyStr "CUST001")) empty_state
  = Raise (ValueError ItemMissingFields).
Proof. vm_compute. reflexivity. Qed.

(** [bool] is a subclass of [int]: a quantity [True] passes the check. *)
Example quantity_true_accepted :
  result_of (add_order (PyStr "ORD001")
               (PyList [PyDict [("name", PyStr "Widget");
                                ("quantity", PyBool true)]])
               (PyStr "CUST001")) empty_state
  = Return 0.
Proof. vm_compute. reflexivity. Qed.

Example none_order_id_rejected :
  result_of (add_order PyNone widget (PyStr "CUST001")) empty_state
  = Raise (ValueError OrderIdRequired).
Proof. vm_compute. reflexivity. Qed.

Lemma valid_items_widget : valid_items widget.
Proof.
  split; [by exists [PyDict [("name", PyStr "Widget"); ("quantity", PyInt 2)]] |].
  repeat constructor; [by eexists | by eexists | by eexists |].
  exists (PyInt 2). by repeat split.
Qed.

(** C1 on the scenario's first order, in the empty store. *)
Lemma add_then_get_round_trip_witness :
  ∃ order,
    result_of (add_order (PyStr "ORD001") widget (PyStr "CUST001")) empty_state
    = Return order
    ∧ result_of (get_order_by_id (PyStr "ORD001"))
        (state_after (add_order (PyStr "ORD001") widget (PyStr "CUST001"))
           empty_state)
      = Return order
    ∧ heap (state_after (get_order_by_id (PyStr "ORD001"))
              (state_after
                 (add_order (PyStr "ORD001") widget (PyStr "CUST001"))
                 empty_state))
        !! order
      = Some [ ("order_id", PyStr "ORD001");
               ("items", widget);
               ("customer_id", PyStr "CUST001");
               ("status", PyStr "pending") ].
Proof.
  apply (add_then_get_round_trip empty_state "ORD001" "CUST001" widget).
  - discriminate.
  - reflexivity.
  - discriminate.
  - split; [eexists; split; [reflexivity | discriminate] |].
    repeat constructor; [by eexists | by eexists | by eexists |].
    exists (PyInt 2). split; [reflexivity |]. split; [reflexivity | simpl; lia].
Defined.

(** [update_order_status_cases] on the scenario: ORD001 goes from pending
    to shipped. *)
Lemma update_order_status_cases_witness :
  (update_order_status (PyStr "ORD001") (PyStr "shipped") st_created).1
  = Return 0
  ∧ _orders (update_order_status (PyStr "ORD001") (PyStr "shipped")
              st_created).2
    = _orders st_created
  ∧ heap (update_order_status (PyStr "ORD001") (PyStr "shipped")
            st_created).2 !! 0
    = Some (dict_set "status" (PyStr "shipped")
              (new_order (PyStr "ORD001") widget (PyStr "CUST001")))
  ∧ dict_get "status"
      (dict_set "status" (PyStr "shipped")
         (new_order (PyStr "ORD001") widget (PyStr "CUST001")))
    = Some (PyStr "shipped").
Proof.
  apply (update_order_status_cases st_created "ORD001" "shipped").
  - discriminate.
  - refine (bool_decide_unpack _ _). vm_compute. exact I.
  - split; reflexivity.
Defined.

(** C3 with a valid identifier and no customer identifier. *)
Lemma add_order_checks_in_order_witness :
  add_order (PyStr "ORD001") widget PyNone empty_state
  = (Raise (ValueError CustomerIdRequired), empty_state).
Proof.
  apply (add_order_checks_in_order empty_state (PyStr "ORD001") widget PyNone).
  - exists "ORD001". split; [reflexivity | discriminate].
  - intros (s & Hs & _). discriminate Hs.
Defined.

(** C4 on the scenario: ORD001 is stored, the other arguments are
    not even valid. *)
Lemma add_order_duplicate_rejected_witness :
  ∃ e, add_order (PyStr "ORD001") (PyList []) PyNone st_created
       = (Raise (ValueError e), st_created).
Proof.
  apply (add_order_duplicate_rejected st_created "ORD001" (PyList []) PyNone 0).
  reflexivity.
Defined.

(** C5 on the scenario with two orders, one of them shipped. *)
Lemma list_orders_by_status_exact_witness :
  ∃ result,
    list_orders_by_status (PyStr "shipped") st_shipped
    = (Return result, st_shipped)
    ∧ (∀ order, order ∈ result ↔
         (∃ order_id, _orders st_shipped !! order_id = Some order)
         ∧ status_of st_shipped order = Some (PyStr "shipped"))
    ∧ ((∀ order_id order, _orders st_shipped !! order_id = Some order →
          status_of st_shipped order ≠ Some (PyStr "shipped")) →
       result = []).
Proof.
  apply (list_orders_by_status_exact st_shipped "shipped").
  - refine (bool_decide_unpack _ _). vm_compute. exact I.
  - change (map_Forall (fun (_ : string) order =>
                          is_Some (status_of st_shipped order))
              (_orders st_shipped)).
    refine (bool_decide_unpack _ _). vm_compute. exact I.
Defined.

(** C6 on the scenario: the stored order is returned. *)
Lemma get_order_by_id_cases_witness :
  result_of (get_order_by_id (PyStr "ORD001")) st_created = Return 0.
Proof.
  apply (get_order_by_id_cases st_created "ORD001").
  split; [discriminate | reflexivity].
Defined.

(** C7 after the three calls of the scenario. *)
Lemma status_always_in_vocabulary_witness :
  ∃ d s, heap st_shipped !! 0 = Some d
         ∧ dict_get "status" d = Some (PyStr s)
         ∧ s ∈ VALID_STATUSES.
Proof.
  apply (proj1 status_always_in_vocabulary
           [AddOrder (PyStr "ORD001") widget (PyStr "CUST001");
            AddOrder (PyStr "ORD002") gadget (PyStr "CUST002");
            UpdateOrderStatus (PyStr "ORD001") (PyStr "shipped")]
           "ORD001" 0).
  reflexivity.
Defined.

(** C8 on the scenario: the update of ORD001 changes its status only. *)
Lemma only_status_changes_after_creation_witness :
  _orders (state_after (update_order_status (PyStr "ORD001") (PyStr "shipped"))
            st_created)
  = _orders st_created
  ∧ heap (state_after (update_order_status (PyStr "ORD001") (PyStr "shipped"))
            st_created) !! 0
    = Some (dict_set "status" (PyStr "shipped")
              (new_order (PyStr "ORD001") widget (PyStr "CUST001")))
  ∧ (∀ field, field ≠ "status" →
       dict_get field
         (dict_set "status" (PyStr "shipped")
            (new_order (PyStr "ORD001") widget (PyStr "CUST001")))
       = dict_get field (new_order (PyStr "ORD001") widget (PyStr "CUST001")))
  ∧ (∀ other, other ≠ 0 →
       heap (state_after
               (update_order_status (PyStr "ORD001") (PyStr "shipped"))
               st_created) !! other
       = heap st_created !! other).
Proof.
  apply (proj1 only_status_changes_after_creation
           st_created (PyStr "ORD001") (PyStr "shipped") 0).
  - reflexivity.
  - reflexivity.
Defined.

(** C9 on the scenario: ORD001 is deleted, then looked up. *)
Lemma delete_then_get_not_found_witness :
  result_of (InMemoryStorage.delete "ORD001") st_created = Return (Some 0)
  ∧ _orders (state_after (InMemoryStorage.delete "ORD001") st_created)
      !! "ORD001" = None
  ∧ heap (state_after (InMemoryStorage.delete "ORD001") st_created)
    = heap st_created
  ∧ ("ORD001" ≠ "" →
     get_order_by_id (PyStr "ORD001")
       (state_after (InMemoryStorage.delete "ORD001") st_created)
     = (Raise (KeyError (OrderNotFound "ORD001")),
        state_after (InMemoryStorage.delete "ORD001") st_created)).
Proof.
  apply (proj1 (delete_then_get_not_found st_created "ORD001") 0).
  reflexivity.
Defined.

(** C10 after the three calls of the scenario, for the second order. *)
Lemma stored_under_own_id_with_four_fields_witness :
  ∃ d, heap st_shipped !! 1 = Some d
       ∧ dict_get "order_id" d = Some (PyStr "ORD002")
       ∧ dict_keys d = ["order_id"; "items"; "customer_id"; "status"].
Proof.
  apply (stored_under_own_id_with_four_fields
           [AddOrder (PyStr "ORD001") widget (PyStr "CUST001");
            AddOrder (PyStr "ORD002") gadget (PyStr "CUST002");
            UpdateOrderStatus (PyStr "ORD001") (PyStr "shipped")]
           "ORD002" 1).
  reflexivity.
Defined.

(** * The storage on its own *)

(** X1: [save] then [get] gives back what was saved and [exists] holds;
    the other identifiers and the records are untouched; saving again
    under the same identifier replaces the entry, whatever it held. *)
Theorem save_then_get (st : state) (order_id : string) (order_data : loc) :
  result_of (InMemoryStorage.get order_id)
    (state_after (InMemoryStorage.save order_id order_data) st)
  = Return (Some order_data)
  ∧ result_of (InMemoryStorage.exists_ order_id)
      (state_after (InMemoryStorage.save order_id order_data) st)
    = Return true
  ∧ (∀ other, other ≠ order_id →
       result_of (InMemoryStorage.get other)
         (state_after (InMemoryStorage.save order_id order_data) st)
       = result_of (InMemoryStorage.get other) st)
  ∧ heap (state_after (InMemoryStorage.save order_id order_data) st) = heap st
  ∧ (∀ previous,
       state_after (InMemoryStorage.save order_id order_data)
         (state_after (InMemoryStorage.save order_id previous) st)
       = state_after (InMemoryStorage.save order_id order_data) st).
Proof.
  unfold result_of, state_after, InMemoryStorage.save, InMemoryStorage.get,
    InMemoryStorage.exists_. simpl.
  rewrite lookup_insert_eq. repeat split.
  - intros other Hne. by rewrite lookup_insert_ne.
  - intros previous. by rewrite insert_insert_eq.
Qed.

(** X2: [get_all] returns, without changing the state, a list that holds
    exactly the stored records, one per identifier.  A [save] under a new
    identifier adds its record to the list, a [save] under a stored
    identifier keeps the length, a [delete] of a stored identifier takes
    its record out. *)
Theorem get_all_lists_stored (st : state) :
  ∃ found,
    InMemoryStorage.get_all st = (Return found, st)
    ∧ (∀ order, order ∈ found ↔ is_stored st order)
    ∧ length found = size (_orders st)
    ∧ (∀ order_id order, _orders st !! order_id = None →
         ∃ found',
           result_of InMemoryStorage.get_all
             (state_after (InMemoryStorage.save order_id order) st)
           = Return found'
           ∧ found' ≡ₚ order :: found)
    ∧ (∀ order_id order, is_Some (_orders st !! order_id) →
         ∃ found',
           result_of InMemoryStorage.get_all
             (state_after (InMemoryStorage.save order_id order) st)
           = Return found'
           ∧ length found' = length found)
    ∧ (∀ order_id order, _orders st !! order_id = Some order →
         ∃ found',
           result_of InMemoryStorage.get_all
             (state_after (InMemoryStorage.delete order_id) st)
           = Return found'
           ∧ order :: found' ≡ₚ found).
Proof.
  exists (map_to_list (_orders st)).*2.
  unfold result_of, state_after, InMemoryStorage.get_all,
    InMemoryStorage.save, InMemoryStorage.delete, is_stored. simpl.
  split; [done |]. split.
  { intros order. rewrite list_elem_of_fmap. split.
    - intros ([k o] & -> & Hk%elem_of_map_to_list). by exists k.
    - intros [k Hk]. exists (k, order).
      split; [done | by apply elem_of_map_to_list]. }
  split; [by rewrite length_fmap, length_map_to_list |].
  split; [| split].
  - intros k o Hk. eexists. split; [done |].
    by rewrite (map_to_list_insert _ _ _ Hk).
  - intros k o [o0 Hk]. eexists. split; [done |].
    rewrite !length_fmap, !length_map_to_list.
    rewrite <- (insert_delete_eq (_orders st) k o).
    rewrite map_size_insert_None by apply lookup_delete_eq.
    rewrite <- (insert_delete_id (_orders st) k o0) at 2 by done.
    by rewrite map_size_insert_None by apply lookup_delete_eq.
  - intros k o Hk. eexists. split; [done |].
    rewrite <- (insert_delete_id (_orders st) k o) at 2 by done.
    by rewrite map_to_list_insert by apply lookup_delete_eq.
Qed.

(** [add_order] accepts a valid input under a free identifier. *)
Lemma add_order_accepts (st : state) (order_id customer_id : string)
    (items : pyval) :
  order_id ≠ "" → customer_id ≠ "" → valid_items items →
  _orders st !! order_id = None →
  add_order (PyStr order_id) items (PyStr customer_id) st
  = (Return (length (heap st)),
     State (<[order_id := length (heap st)]> (_orders st))
           (heap st ++ [new_order (PyStr order_id) items (PyStr customer_id)])).
Proof.
  intros Hid Hcid [Hlist Hall%first_violation_None] Hfree.
  rewrite add_order_eval, !truthy_str, !bool_decide_eq_false_2 by done.
  apply guard_nonempty_list in Hlist. rewrite Hlist, Hall. simpl.
  by rewrite Hfree, bool_decide_eq_false_2 by (by intros [? ?]).
Qed.

(** X3: [clear] empties the storage dictionary: afterwards [get_all] is
    empty, no identifier is found, and every identifier is free again for
    [add_order].  The records themselves are not touched. *)
Theorem clear_empties_store (st : state) :
  result_of InMemoryStorage.get_all (state_after InMemoryStorage.clear st)
  = Return []
  ∧ (∀ order_id,
       result_of (InMemoryStorage.get order_id)
         (state_after InMemoryStorage.clear st) = Return None
       ∧ result_of (InMemoryStorage.exists_ order_id)
           (state_after InMemoryStorage.clear st) = Return false
       ∧ (order_id ≠ "" →
          result_of (get_order_by_id (PyStr order_id))
            (state_after InMemoryStorage.clear st)
          = Raise (KeyError (OrderNotFound order_id))))
  ∧ heap (state_after InMemoryStorage.clear st) = heap st
  ∧ (∀ order_id customer_id items,
       order_id ≠ "" → customer_id ≠ "" → valid_items items →
       ∃ order,
         result_of (add_order (PyStr order_id) items (PyStr customer_id))
           (state_after InMemoryStorage.clear st)
         = Return order).
Proof.
  unfold result_of, state_after, InMemoryStorage.clear,
    InMemoryStorage.get_all, InMemoryStorage.get, InMemoryStorage.exists_.
  simpl. split; [by rewrite map_to_list_empty |].
  split; [| split; [done |]].
  - intros k. rewrite lookup_empty. repeat split.
    intros Hk.
    rewrite get_order_by_id_eval, truthy_str, bool_decide_eq_false_2 by done.
    simpl. by rewrite lookup_empty.
  - intros k cid items Hk Hcid Hitems. eexists.
    by rewrite add_order_accepts by (done || apply lookup_empty).
Qed.

(** X4: once an order is deleted, [add_order] accepts its identifier
    again: it creates a new record, distinct from the deleted one, with
    status "pending" and the newly submitted values, and leaves the deleted
    record as it was. *)
Theorem deleted_id_can_be_reused
    (st : state) (order_id customer_id : string) (items : pyval)
    (old : loc) (d : pydict) :
  order_id ≠ "" → customer_id ≠ "" → valid_items items →
  stored st order_id old d →
  ∃ order,
    result_of (add_order (PyStr order_id) items (PyStr customer_id))
      (state_after (InMemoryStorage.delete order_id) st)
    = Return order
    ∧ order ≠ old
    ∧ _orders (state_after
                 (add_order (PyStr order_id) items (PyStr customer_id))
                 (state_after (InMemoryStorage.delete order_id) st))
        !! order_id = Some order
    ∧ heap (state_after
              (add_order (PyStr order_id) items (PyStr customer_id))
              (state_after (InMemoryStorage.delete order_id) st))
        !! order
      = Some (new_order (PyStr order_id) items (PyStr customer_id))
    ∧ heap (state_after
              (add_order (PyStr order_id) items (PyStr customer_id))
              (state_after (InMemoryStorage.delete order_id) st))
        !! old = Some d.
Proof.
  intros Hid Hcid Hitems [Hk Hd].
  unfold result_of, state_after, InMemoryStorage.delete. simpl.
  rewrite add_order_accepts by (done || apply lookup_delete_eq). simpl.
  eexists. split; [done |]. split; [| split; [| split]].
  - apply lookup_lt_Some in Hd. lia.
  - apply lookup_insert_eq.
  - by apply list_lookup_middle.
  - by apply lookup_app_l_Some.
Qed.

(** X5: [list_all_orders] never raises and never changes the state; it
    returns exactly the stored records.  A successful [add_order] adds the
    created record to the listing; an [add_order] that raises and an
    [update_order_status], whatever its outcome, leave the listing as it
    was. *)
Theorem list_all_orders_follows_calls (st : state) :
  ∃ found,
    list_all_orders st = (Return found, st)
    ∧ (∀ order, order ∈ found ↔ is_stored st order)
    ∧ (∀ order_id items customer_id order,
         result_of (add_order order_id items customer_id) st = Return order →
         ∃ found',
           result_of list_all_orders
             (state_after (add_order order_id items customer_id) st)
           = Return found'
           ∧ found' ≡ₚ order :: found)
    ∧ (∀ order_id items customer_id e,
         result_of (add_order order_id items customer_id) st = Raise e →
         result_of list_all_orders
           (state_after (add_order order_id items customer_id) st)
         = Return found)
    ∧ (∀ order_id new_status,
         result_of list_all_orders
           (state_after (update_order_status order_id new_status) st)
         = Return found).
Proof.
  exists (map_to_list (_orders st)).*2.
  split; [done |]. split; [| split; [| split]].
  - intros order. unfold is_stored. rewrite list_elem_of_fmap. split.
    + intros ([k o] & -> & Hk%elem_of_map_to_list). by exists k.
    + intros [k Hk]. exists (k, order).
      split; [done | by apply elem_of_map_to_list].
  - intros oid items cid order Hres.
    apply add_order_returns in Hres as (-> & Hfree & ->).
    eexists. split; [done |]. simpl.
    by rewrite (map_to_list_insert _ _ _ Hfree).
  - intros oid items cid e Hres.
    destruct (add_order_effect oid items cid st)
      as [[-> _]|(k & _ & _ & _ & Hr & _)]; [done | congruence].
  - intros oid ns.
    by destruct (update_order_status_effect oid ns st)
      as [[-> _]|(k & o & s & _ & _ & _ & _ & _ & ->)].
Qed.

(** * Status updates and listings *)

Lemma update_order_status_accepts (st : state) (order_id status : string)
    (order : loc) :
  order_id ≠ "" → status ∈ VALID_STATUSES →
  _orders st !! order_id = Some order →
  update_order_status (PyStr order_id) (PyStr status) st
  = (Return order,
     State (_orders st)
           (alter (dict_set "status" (PyStr status)) order (heap st))).
Proof.
  intros Hid Hs Hk.
  rewrite update_order_status_eval, truthy_str, in_set_str. simpl str_value.
  rewrite bool_decide_eq_false_2, bool_decide_eq_true_2, Hk by done.
  by rewrite insert_id.
Qed.

Lemma dict_set_set (k : string) (v w : pyval) (d : pydict) :
  dict_set k w (dict_set k v d) = dict_set k w d.
Proof.
  induction d as [|[k0 v0] d IH]; simpl.
  - by rewrite decide_True.
  - destruct (decide (k = k0)) as [->|Hne]; simpl.
    + by rewrite decide_True.
    + by rewrite decide_False, IH.
Qed.

Lemma status_of_after_update (m : gmap string loc) (h : list pydict)
    (v : pyval) (order other : loc) :
  status_of (State m (alter (dict_set "status" v) order h)) other
  = if decide (order = other)
    then (fun _ => v) <$> h !! other
    else status_of (State m h) other.
Proof.
  unfold status_of. simpl. destruct (decide (order = other)) as [->|Hne].
  - rewrite list_lookup_alter_eq. destruct (h !! other) as [d|]; [| done].
    simpl. by rewrite dict_get_set_eq.
  - by rewrite list_lookup_alter_ne.
Qed.

Lemma filter_status_elem (st : state) (status : string) (order : loc) :
  order ∈ List.filter
            (fun order => match status_of st order with
                          | Some s => py_eq s (PyStr status)
                          | None => false
                          end) (map_to_list (_orders st)).*2
  ↔ is_stored st order ∧ status_of st order = Some (PyStr status).
Proof.
  unfold is_stored.
  rewrite list_elem_of_In, filter_In, <- list_elem_of_In, list_elem_of_fmap.
  split.
  - intros [([k o] & -> & Hk%elem_of_map_to_list) Heq]. simpl in *.
    split; [by exists k |].
    destruct (status_of st o) as [s|]; [| done].
    by apply py_eq_str in Heq as ->.
  - intros [[k Hk] Hs]. split.
    + exists (k, order). split; [done | by apply elem_of_map_to_list].
    + rewrite Hs. by apply py_eq_str.
Qed.

(** X6: for arbitrary Python values, [update_order_status] raises
    [TypeError] exactly when the identifier is a non-empty string and the
    new status is a list or a dict; the identifier's [ValueError] exactly
    when the identifier is not a non-empty string; the status's
    [ValueError] exactly when the identifier passes and the status is
    hashable but not a string of the vocabulary; it returns exactly when
    both pass and the identifier is stored.  Whatever it raises, the state
    is unchanged. *)
Theorem update_order_status_outcomes
    (st : state) (order_id new_status : pyval) :
  ((∃ msg, result_of (update_order_status order_id new_status) st
           = Raise (TypeError msg))
   ↔ nonempty_string order_id ∧ unhashable new_status)
  ∧ (result_of (update_order_status order_id new_status) st
     = Raise (ValueError OrderIdNotNonEmpty)
     ↔ ¬ nonempty_string order_id)
  ∧ (result_of (update_order_status order_id new_status) st
     = Raise (ValueError (InvalidStatus new_status))
     ↔ nonempty_string order_id ∧ ¬ unhashable new_status
       ∧ ¬ (∃ s, new_status = PyStr s ∧ s ∈ VALID_STATUSES))
  ∧ ((∃ order, result_of (update_order_status order_id new_status) st
               = Return order)
     ↔ ∃ k s, order_id = PyStr k ∧ k ≠ "" ∧ new_status = PyStr s
              ∧ s ∈ VALID_STATUSES ∧ is_Some (_orders st !! k))
  ∧ (∀ e, result_of (update_order_status order_id new_status) st = Raise e →
       state_after (update_order_status order_id new_status) st = st).
Proof.
  unfold result_of, state_after, unhashable.
  rewrite update_order_status_eval.
  destruct (negb (truthy order_id) || negb (isinstance order_id TStr)) eqn:Hid.
  { apply guard_not_nonempty_string in Hid. simpl.
    unfold nonempty_string in *. repeat split; try done; naive_solver. }
  apply guard_nonempty_string in Hid as Hne.
  destruct Hne as (k & -> & Hk). simpl str_value.
  unfold nonempty_string.
  destruct new_status as [|b|n|q|s|l|d]; simpl;
    try (repeat split; try done; naive_solver).
  case_bool_decide as Hs; simpl.
  - destruct (_orders st !! k) as [order|] eqn:Hget; simpl;
      repeat split; try done; try naive_solver.
    intros (k0 & s0 & [= <-] & _ & _ & _ & [o Ho]). congruence.
  - repeat split; try done; naive_solver.
Qed.

(** X7: the status an order has puts no condition on the next one, and
    the last update wins: after an update to one status of the vocabulary,
    an update to any other (or the same) status succeeds and leaves the
    state that this second update alone would have left. *)
Theorem update_twice_last_wins
    (st : state) (order_id first second : string) (order : loc) :
  order_id ≠ "" → first ∈ VALID_STATUSES → second ∈ VALID_STATUSES →
  _orders st !! order_id = Some order →
  result_of (update_order_status (PyStr order_id) (PyStr second))
    (state_after (update_order_status (PyStr order_id) (PyStr first)) st)
  = Return order
  ∧ state_after (update_order_status (PyStr order_id) (PyStr second))
      (state_after (update_order_status (PyStr order_id) (PyStr first)) st)
    = state_after (update_order_status (PyStr order_id) (PyStr second)) st.
Proof.
  intros Hid H1 H2 Hk. unfold result_of, state_after.
  rewrite (update_order_status_accepts st _ first order) by done. simpl.
  rewrite !(update_order_status_accepts _ _ second order) by done. simpl.
  split; [done |]. f_equal.
  rewrite list_alter_alter_eq. apply list_alter_ext; [| done].
  intros d _. apply dict_set_set.
Qed.

(** X8: in a store whose records all have a status, after a successful
    update of an order to a status, [list_orders_by_status] returns that
    order for this status and for no other status of the vocabulary. *)
Theorem updated_order_listed_under_new_status
    (st : state) (order_id status : string) (order : loc) :
  order_id ≠ "" → status ∈ VALID_STATUSES →
  _orders st !! order_id = Some order → records_have_status st →
  ∀ other, other ∈ VALID_STATUSES →
    ∃ found,
      result_of (list_orders_by_status (PyStr other))
        (state_after
           (update_order_status (PyStr order_id) (PyStr status)) st)
      = Return found
      ∧ (order ∈ found ↔ other = status).
Proof.
  intros Hid Hs Hk Hst other Hother. unfold result_of, state_after.
  rewrite (update_order_status_accepts _ _ _ order) by done. simpl.
  destruct (Hst _ _ Hk) as [v0 Hv0].
  assert (Hlive : is_Some (heap st !! order)).
  { unfold status_of in Hv0. by destruct (heap st !! order). }
  rewrite list_orders_by_status_eval, bool_decide_eq_true_2; [| done |].
  - eexists. split; [done |].
    rewrite filter_status_elem, status_of_after_update, decide_True by done.
    destruct Hlive as [d ->]. simpl. split.
    + by intros [_ [= ->]].
    + intros ->. split; [by exists order_id | done].
  - intros k o Hko. simpl in Hko. rewrite status_of_after_update.
    destruct (decide (order = o)) as [<-|Hne]; [| by apply (Hst k)].
    by destruct Hlive as [d ->].
Qed.

Lemma store_ok_injective (st : state) (k1 k2 : string) (order : loc) :
  store_ok st →
  _orders st !! k1 = Some order → _orders st !! k2 = Some order → k1 = k2.
Proof.
  intros Hok H1 H2.
  destruct (Hok _ _ H1) as (d1 & Hd1 & _ & _ & Hid1 & _).
  destruct (Hok _ _ H2) as (d2 & Hd2 & _ & _ & Hid2 & _).
  congruence.
Qed.

Lemma store_ok_get_all_NoDup (st : state) :
  store_ok st → NoDup (map_to_list (_orders st)).*2.
Proof.
  intros Hok. apply NoDup_fmap_2_strong; [| apply NoDup_map_to_list].
  intros [k1 o1] [k2 o2] H1%elem_of_map_to_list H2%elem_of_map_to_list.
  simpl. intros <-. f_equal. by eapply store_ok_injective.
Qed.

(** X9: after any sequence of calls from the empty store, no record is
    listed twice by [list_all_orders], and every stored order is listed
    under exactly one status of the vocabulary: [list_orders_by_status]
    returns it for that status and for no other, each time once. *)
Theorem every_order_under_exactly_one_status (cs : list call) :
  (∃ found,
     list_all_orders (run cs empty_state) = (Return found, run cs empty_state)
     ∧ NoDup found)
  ∧ (∀ order, is_stored (run cs empty_state) order →
       ∃ status, status ∈ VALID_STATUSES
         ∧ ∀ other, other ∈ VALID_STATUSES →
             ∃ found,
               list_orders_by_status (PyStr other) (run cs empty_state)
               = (Return found, run cs empty_state)
               ∧ NoDup found
               ∧ (order ∈ found ↔ other = status)).
Proof.
  pose proof (run_store_ok cs empty_state empty_store_ok) as Hok.
  pose proof (store_ok_get_all_NoDup _ Hok) as Hnodup.
  split; [by eexists |].
  intros order [k Hk].
  destruct (Hok _ _ Hk) as (d & Hd & _ & _ & _ & s & Hs & Hin).
  exists s. split; [done |]. intros other Hother.
  rewrite list_orders_by_status_eval, bool_decide_eq_true_2
    by (done || by apply store_ok_have_status).
  eexists. split; [done |].
  split; [by apply NoDup_ListNoDup, List.NoDup_filter, NoDup_ListNoDup |].
  rewrite filter_status_elem. unfold status_of. rewrite Hd. simpl.
  rewrite Hs. split.
  - by intros [_ [= ->]].
  - intros ->. split; [by exists k | done].
Qed.

(** * The HTTP layer *)

Lemma add_order_returns_iff (st : state) (order_id items customer_id : pyval) :
  (∃ order, result_of (add_order order_id items customer_id) st = Return order)
  ↔ nonempty_string order_id ∧ nonempty_string customer_id
    ∧ valid_items items ∧ _orders st !! str_value order_id = None.
Proof.
  unfold result_of, valid_items. rewrite add_order_eval.
  rewrite <- first_violation_None, <- !guard_nonempty_string,
    <- guard_nonempty_list.
  destruct (negb (truthy order_id) || negb (isinstance order_id TStr));
    [simpl; naive_solver |].
  destruct (negb (truthy customer_id) || negb (isinstance customer_id TStr));
    [simpl; naive_solver |].
  destruct (negb (truthy items) || negb (isinstance items TList));
    [simpl; naive_solver |].
  destruct (first_violation (list_value items)); [simpl; naive_solver |].
  case_bool_decide as Hdup; simpl.
  - split; [by intros [? ?] |]. intros (_ & _ & _ & Hfree).
    rewrite Hfree in Hdup. by destruct Hdup.
  - split; [| by eexists]. intros _. repeat split.
    by apply eq_None_not_Some.
Qed.

Lemma add_order_raises (st : state) (order_id items customer_id : pyval)
    (e : exn) :
  result_of (add_order order_id items customer_id) st = Raise e →
  ∃ v, add_order order_id items customer_id st = (Raise (ValueError v), st).
Proof.
  intros Hres.
  destruct (add_order_effect order_id items customer_id st)
    as [[Hst [v Hv]]|(k & _ & _ & _ & Hr & _)]; [| congruence].
  exists v. unfold result_of, state_after in *.
  destruct (add_order order_id items customer_id st) as [r st']. simpl in *.
  congruence.
Qed.

(** X10: [create_order] answers 400 to a body that is missing or empty,
    and lets an [AttributeError] escape for a body that is not a JSON
    object.  For a JSON object it always answers: 201 with the created
    record exactly when the three fields pass the rules of [add_order] and
    the identifier is free (a field that is absent is read as [None] and
    fails them), and otherwise 400 with the state unchanged.  After a 201,
    [get_order] with the submitted identifier answers 200 with the same
    record. *)
Theorem create_order_replies (st : state) (data : pyval) :
  (truthy data = false →
     App.create_order data st
     = (App.Response (App.JsonErrorText "Request body must be valid JSON.") 400,
        st))
  ∧ (truthy data = true → isinstance data TDict = false →
       App.create_order data st
       = (App.Unhandled (App.AttributeError "get"), st))
  ∧ (∀ d, data = PyDict d → d ≠ [] →
       let order_id := App.get_or_none d "order_id" in
       let items := App.get_or_none d "items" in
       let customer_id := App.get_or_none d "customer_id" in
       (nonempty_string order_id ∧ nonempty_string customer_id
        ∧ valid_items items ∧ _orders st !! str_value order_id = None →
        ∃ order st',
          App.create_order data st = (App.Response (App.JsonOrder order) 201, st')
          ∧ stored st' (str_value order_id) order
              (new_order order_id items customer_id)
          ∧ App.get_order (str_value order_id) st'
            = (App.Response (App.JsonOrder order) 200, st'))
       ∧ (¬ (nonempty_string order_id ∧ nonempty_string customer_id
             ∧ valid_items items ∧ _orders st !! str_value order_id = None) →
          ∃ e,
            App.create_order data st
            = (App.Response (App.JsonError (ValueError e)) 400, st))).
Proof.
  unfold App.create_order. split; [by intros -> |].
  split; [by intros -> -> |].
  intros d -> Hd. simpl.
  rewrite (bool_decide_eq_false_2 (d = [])) by done. simpl. split.
  - intros Hok. pose proof Hok as (Hid & _ & _ & Hfree).
    apply add_order_returns_iff in Hok as [order Hres].
    pose proof (add_order_returns _ _ _ _ _ Hres) as (-> & _ & Hst).
    unfold result_of, state_after in Hres, Hst.
    destruct (add_order _ _ _ st) as [r st']. simpl in Hres, Hst.
    subst r st'. eexists _, _. split; [done |]. split.
    + split; simpl; [apply lookup_insert_eq | by apply list_lookup_middle].
    + destruct Hid as (k & Hk & Hne). unfold App.get_order.
      rewrite get_order_by_id_eval, truthy_str. rewrite Hk. simpl.
      by rewrite bool_decide_eq_false_2, lookup_insert_eq.
  - intros Hbad.
    destruct (result_of (add_order (App.get_or_none d "order_id")
                           (App.get_or_none d "items")
                           (App.get_or_none d "customer_id")) st)
      as [e|order] eqn:Hres.
    + apply add_order_raises in Hres as [v ->]. by exists v.
    + destruct Hbad. apply add_order_returns_iff. by exists order.
Qed.

(** X11: [get_order] answers 200 with the stored record when the
    identifier is stored, and 404 otherwise, also for the empty identifier
    that the tracker rejects with a [ValueError]; it never answers 400,
    lets no exception escape and does not change the state. *)
Theorem get_order_replies (st : state) (order_id : string) :
  (∀ order, order_id ≠ "" → _orders st !! order_id = Some order →
     App.get_order order_id st = (App.Response (App.JsonOrder order) 200, st))
  ∧ (order_id ≠ "" → _orders st !! order_id = None →
       App.get_order order_id st
       = (App.Response (App.JsonError (KeyError (OrderNotFound order_id))) 404,
          st))
  ∧ (order_id = "" →
       App.get_order order_id st
       = (App.Response (App.JsonError (ValueError OrderIdNotNonEmpty)) 404, st)).
Proof.
  unfold App.get_order. rewrite get_order_by_id_eval, truthy_str.
  simpl str_value. repeat split.
  - intros order Hid ->. by rewrite bool_decide_eq_false_2.
  - intros Hid ->. by rewrite bool_decide_eq_false_2.
  - intros ->. by rewrite bool_decide_eq_true_2.
Qed.

(** X12: for a JSON object, [update_order] answers 400 when the status
    field is absent or falsy; for a status that is a non-empty string: 400
    when it is outside the vocabulary, whether or not the order exists, 404
    when it is in the vocabulary and the identifier is not stored, and 200
    with the record, whose status is now the new one, when it is stored.
    A status that is a non-empty list is not answered: the [TypeError] of
    the membership test escapes the handler.  Except on 200 the state is
    unchanged. *)
Theorem update_order_replies (st : state) (order_id : string) (d : pydict) :
  d ≠ [] → order_id ≠ "" →
  (truthy (App.get_or_none d "status") = false →
     App.update_order order_id (PyDict d) st
     = (App.Response
          (App.JsonErrorText "Missing 'status' field in request body.") 400,
        st))
  ∧ (∀ s, App.get_or_none d "status" = PyStr s → s ≠ "" →
       (s ∉ VALID_STATUSES →
          App.update_order order_id (PyDict d) st
          = (App.Response
               (App.JsonError (ValueError (InvalidStatus (PyStr s)))) 400,
             st))
       ∧ (s ∈ VALID_STATUSES → _orders st !! order_id = None →
            App.update_order order_id (PyDict d) st
            = (App.Response
                 (App.JsonError (KeyError (OrderNotFound order_id))) 404,
               st))
       ∧ (s ∈ VALID_STATUSES →
          ∀ order record, stored st order_id order record →
            ∃ st',
              App.update_order order_id (PyDict d) st
              = (App.Response (App.JsonOrder order) 200, st')
              ∧ stored st' order_id order
                  (dict_set "status" (PyStr s) record)))
  ∧ (∀ l, App.get_or_none d "status" = PyList l → l ≠ [] →
       App.update_order order_id (PyDict d) st
       = (App.Unhandled (App.Escaped (TypeError "unhashable type: 'list'")),
          st)).
Proof.
  intros Hd Hid. unfold App.update_order. simpl.
  rewrite (bool_decide_eq_false_2 (d = [])) by done. simpl.
  split; [by intros -> |]. split.
  - intros s -> Hs. simpl.
    rewrite (bool_decide_eq_false_2 (s = "")) by done. simpl.
    rewrite update_order_status_eval, truthy_str, in_set_str.
    rewrite (bool_decide_eq_false_2 (order_id = "")) by done.
    simpl str_value. split; [| split].
    + intros Hout. by rewrite bool_decide_eq_false_2.
    + intros Hin ->. by rewrite bool_decide_eq_true_2.
    + intros Hin order record [Hk Hrec].
      rewrite bool_decide_eq_true_2, Hk by done.
      eexists. split; [done |]. split; simpl.
      * by rewrite insert_id.
      * by rewrite list_lookup_alter_eq, Hrec.
  - intros l -> Hl. simpl.
    rewrite (bool_decide_eq_false_2 (l = [])) by done. simpl.
    rewrite update_order_status_eval, truthy_str.
    by rewrite (bool_decide_eq_false_2 (order_id = "")) by done.
Qed.

(** X13: [delete_order] answers 200 with the stored record and removes
    its entry, leaving the other entries and all records as they were;
    after that [get_order] and a second [delete_order] with the same
    identifier answer 404.  For an identifier that is not stored it
    answers 404 and changes nothing. *)
Theorem delete_order_replies (st : state) (order_id : string) :
  order_id ≠ "" →
  (∀ order, _orders st !! order_id = Some order →
     App.delete_order order_id st
     = (App.Response (App.JsonOrder order) 200,
        State (delete order_id (_orders st)) (heap st))
     ∧ App.get_order order_id (State (delete order_id (_orders st)) (heap st))
       = (App.Response (App.JsonError (KeyError (OrderNotFound order_id))) 404,
          State (delete order_id (_orders st)) (heap st))
     ∧ App.delete_order order_id
         (State (delete order_id (_orders st)) (heap st))
       = (App.Response (App.JsonError (KeyError (OrderNotFound order_id))) 404,
          State (delete order_id (_orders st)) (heap st)))
  ∧ (_orders st !! order_id = None →
       App.delete_order order_id st
       = (App.Response (App.JsonError (KeyError (OrderNotFound order_id))) 404,
          st)).
Proof.
  intros Hid.
  assert (Hmiss : ∀ st0, _orders st0 !! order_id = None →
    App.delete_order order_id st0
    = (App.Response (App.JsonError (KeyError (OrderNotFound order_id))) 404,
       st0)).
  { intros st0 Hnone.
    unfold App.delete_order, App.delete_order_body. rewrite bind_eval.
    rewrite get_order_by_id_eval, truthy_str, bool_decide_eq_false_2 by done.
    simpl str_value. by rewrite Hnone. }
  split; [| apply Hmiss].
  intros order Hk. split; [| split].
  - unfold App.delete_order, App.delete_order_body. rewrite bind_eval.
    rewrite get_order_by_id_eval, truthy_str, bool_decide_eq_false_2 by done.
    simpl str_value. by rewrite Hk.
  - unfold App.get_order.
    rewrite get_order_by_id_eval, truthy_str, bool_decide_eq_false_2 by done.
    simpl. by rewrite lookup_delete_eq.
  - apply Hmiss. simpl. apply lookup_delete_eq.
Qed.

Lemma comprehension_field (field : string) (v : pyval) (st : state)
    (l : list loc) :
  (∀ order, order ∈ l → is_Some (heap st !! order ≫= dict_get field)) →
  comprehension l (fun o => c ← getitem o field; mret (py_eq c v)) st
  = (Return (List.filter
               (fun o => match heap st !! o ≫= dict_get field with
                         | Some c => py_eq c v
                         | None => false
                         end) l), st).
Proof.
  set (test := fun o : loc => _).
  assert (Htest : ∀ o c, heap st !! o ≫= dict_get field = Some c →
            test o st = (Return (py_eq c v), st)).
  { intros o c Hc. unfold test. rewrite bind_eval.
    unfold getitem. by rewrite Hc. }
  induction l as [|o l IH]; intros Hall; simpl; [done |].
  destruct (Hall o) as [c Hc]; [by left |].
  rewrite !bind_eval, (Htest _ _ Hc), bind_eval, IH, Hc.
  - by destruct (py_eq c v).
  - intros o' Ho'. apply Hall. by right.
Qed.

Lemma dict_get_of_key (k : string) (d : pydict) :
  k ∈ dict_keys d → is_Some (dict_get k d).
Proof.
  unfold dict_keys. induction d as [|[k0 v0] d IH]; simpl.
  - by intros ?%elem_of_nil.
  - intros [->|Hin]%elem_of_cons.
    + by rewrite decide_True.
    + destruct (decide (k = k0)); [done | by apply IH].
Qed.

Lemma store_ok_customer (st : state) (order : loc) :
  store_ok st → is_stored st order → is_Some (customer_of st order).
Proof.
  intros Hok [k Hk]. destruct (Hok _ _ Hk) as (d & Hd & _ & Hkeys & _).
  unfold customer_of. rewrite Hd. simpl.
  apply dict_get_of_key. rewrite Hkeys. set_solver.
Qed.

Lemma filter_customer_elem (st : state) (customer_id : string)
    (l : list loc) (order : loc) :
  order ∈ List.filter
            (fun o => match heap st !! o ≫= dict_get "customer_id" with
                      | Some c => py_eq c (PyStr customer_id)
                      | None => false
                      end) l
  ↔ order ∈ l ∧ customer_of st order = Some (PyStr customer_id).
Proof.
  rewrite list_elem_of_In, filter_In, <- list_elem_of_In.
  unfold customer_of. split; intros [Hin Hc]; (split; [done |]).
  - destruct (heap st !! order ≫= dict_get "customer_id") as [c|]; [| done].
    by apply py_eq_str in Hc as ->.
  - rewrite Hc. by apply py_eq_str.
Qed.

(** X14: after any sequence of calls from the empty store, [list_orders]
    answers 400 to a status filter that is not empty and not in the
    vocabulary, whatever the customer filter is.  Otherwise it answers 200
    with the stored orders, each once, that have the given status and the
    given customer identifier; a filter that is absent or the empty string
    selects nothing out. *)
Theorem list_orders_replies
    (cs : list call) (status customer_id : option string) :
  (App.given status = true → default "" status ∉ VALID_STATUSES →
     App.list_orders status customer_id (run cs empty_state)
     = (App.Response
          (App.JsonError
             (ValueError (InvalidStatus (PyStr (default "" status))))) 400,
        run cs empty_state))
  ∧ (App.given status = false ∨ default "" status ∈ VALID_STATUSES →
     ∃ found,
       App.list_orders status customer_id (run cs empty_state)
       = (App.Response (App.JsonOrders found) 200, run cs empty_state)
       ∧ NoDup found
       ∧ ∀ order, order ∈ found ↔
           is_stored (run cs empty_state) order
           ∧ (App.given status = true →
              status_of (run cs empty_state) order
              = Some (PyStr (default "" status)))
           ∧ (App.given customer_id = true →
              customer_of (run cs empty_state) order
              = Some (PyStr (default "" customer_id)))).
Proof.
  pose proof (run_store_ok cs empty_state empty_store_ok) as Hok.
  pose proof (store_ok_have_status _ Hok) as Hst.
  pose proof (store_ok_get_all_NoDup _ Hok) as Hnodup.
  set (st := run cs empty_state) in *.
  unfold App.list_orders, App.list_orders_body. rewrite bind_eval. split.
  { intros Hgiven Hout. rewrite Hgiven.
    unfold list_orders_by_status.
    by rewrite bind_eval, in_set_str, bool_decide_eq_false_2. }
  intros Hsel.
  assert (∃ found0,
    (if App.given status
     then list_orders_by_status (PyStr (default "" status))
     else list_all_orders) st = (Return found0, st)
    ∧ NoDup found0
    ∧ ∀ order, order ∈ found0 ↔
        is_stored st order
        ∧ (App.given status = true →
           status_of st order = Some (PyStr (default "" status))))
    as (found0 & -> & Hnd0 & Hmem0).
  { destruct (App.given status) eqn:Hgiven.
    - destruct Hsel as [|Hin]; [done |].
      rewrite list_orders_by_status_eval, bool_decide_eq_true_2 by done.
      eexists. split; [done |].
      split; [by apply NoDup_ListNoDup, List.NoDup_filter, NoDup_ListNoDup |].
      intros order. rewrite filter_status_elem. naive_solver.
    - eexists. split; [done |]. split; [done |].
      intros order. unfold is_stored. rewrite list_elem_of_fmap. split.
      + intros ([k o] & -> & Hk%elem_of_map_to_list). split; [by exists k | done].
      + intros [[k Hk] _]. exists (k, order).
        split; [done | by apply elem_of_map_to_list]. }
  destruct (App.given customer_id) eqn:Hcust.
  - rewrite comprehension_field.
    + eexists. split; [done |].
      split; [by apply NoDup_ListNoDup, List.NoDup_filter, NoDup_ListNoDup |].
      intros order. rewrite filter_customer_elem, Hmem0. naive_solver.
    + intros order [Hstored _]%Hmem0. by apply store_ok_customer.
  - exists found0. split; [done |]. split; [done |].
    intros order. rewrite Hmem0. naive_solver.
Qed.

(** * Instances on the scenario *)

Example http_scenario :
  App.create_order
    (PyDict [("order_id", PyStr "ORD001"); ("items", widget);
             ("customer_id", PyStr "CUST001")]) empty_state
  = (App.Response (App.JsonOrder 0) 201, st_created)
  ∧ App.create_order (PyDict [("order_id", PyStr "ORD101")]) empty_state
    = (App.Response (App.JsonError (ValueError CustomerIdRequired)) 400,
       empty_state)
  ∧ App.update_order "ORD001" (PyDict [("status", PyStr "flying")]) st_created
    = (App.Response
         (App.JsonError (ValueError (InvalidStatus (PyStr "flying")))) 400,
       st_created)
  ∧ App.update_order "MISSING" (PyDict [("status", PyStr "shipped")]) st_created
    = (App.Response (App.JsonError (KeyError (OrderNotFound "MISSING"))) 404,
       st_created)
  ∧ App.list_orders (Some "shipped") None st_shipped
    = (App.Response (App.JsonOrders [0]) 200, st_shipped)
  ∧ App.list_orders None (Some "CUST002") st_shipped
    = (App.Response (App.JsonOrders [1]) 200, st_shipped)
  ∧ App.delete_order "GHOST" st_created
    = (App.Response (App.JsonError (KeyError (OrderNotFound "GHOST"))) 404,
       st_created).
Proof. repeat split; vm_compute; reflexivity. Qed.

(** X4 on the scenario: ORD001 is deleted and created again. *)
Lemma deleted_id_can_be_reused_witness :
  ∃ order,
    result_of (add_order (PyStr "ORD001") gadget (PyStr "CUST002"))
      (state_after (InMemoryStorage.delete "ORD001") st_created)
    = Return order
    ∧ order ≠ 0
    ∧ _orders (state_after
                 (add_order (PyStr "ORD001") gadget (PyStr "CUST002"))
                 (state_after (InMemoryStorage.delete "ORD001") st_created))
        !! "ORD001" = Some order
    ∧ heap (state_after
              (add_order (PyStr "ORD001") gadget (PyStr "CUST002"))
              (state_after (InMemoryStorage.delete "ORD001") st_created))
        !! order
      = Some (new_order (PyStr "ORD001") gadget (PyStr "CUST002"))
    ∧ heap (state_after
              (add_order (PyStr "ORD001") gadget (PyStr "CUST002"))
              (state_after (InMemoryStorage.delete "ORD001") st_created))
        !! 0
      = Some (new_order (PyStr "ORD001") widget (PyStr "CUST001")).
Proof.
  apply (deleted_id_can_be_reused st_created "ORD001" "CUST002" gadget 0).
  - discriminate.
  - discriminate.
  - split; [eexists; split; [reflexivity | discriminate] |].
    repeat constructor; [by eexists | by eexists | by eexists |].
    exists (PyInt 1). split; [reflexivity |]. split; [reflexivity | simpl; lia].
  - split; reflexivity.
Defined.

(** X7 on the scenario: ORD001 goes to cancelled, then back to pending. *)
Lemma update_twice_last_wins_witness :
  result_of (update_order_status (PyStr "ORD001") (PyStr "pending"))
    (state_after (update_order_status (PyStr "ORD001") (PyStr "cancelled"))
       st_created)
  = Return 0
  ∧ state_after (update_order_status (PyStr "ORD001") (PyStr "pending"))
      (state_after (update_order_status (PyStr "ORD001") (PyStr "cancelled"))
         st_created)
    = state_after (update_order_status (PyStr "ORD001") (PyStr "pending"))
        st_created.
Proof.
  apply (update_twice_last_wins st_created "ORD001" "cancelled" "pending" 0).
  - discriminate.
  - refine (bool_decide_unpack _ _). vm_compute. exact I.
  - refine (bool_decide_unpack _ _). vm_compute. exact I.
  - reflexivity.
Defined.

(** X8 on the scenario: once delivered, ORD001 is no longer listed as
    pending. *)
Lemma updated_order_listed_under_new_status_witness :
  ∃ found,
    result_of (list_orders_by_status (PyStr "pending"))
      (state_after
         (update_order_status (PyStr "ORD001") (PyStr "delivered")) st_created)
    = Return found
    ∧ (0 ∈ found ↔ "pending" = "delivered").
Proof.
  apply (updated_order_listed_under_new_status
           st_created "ORD001" "delivered" 0).
  - discriminate.
  - refine (bool_decide_unpack _ _). vm_compute. exact I.
  - reflexivity.
  - change (map_Forall (fun (_ : string) order =>
                          is_Some (status_of st_created order))
              (_orders st_created)).
    refine (bool_decide_unpack _ _). vm_compute. exact I.
  - refine (bool_decide_unpack _ _). vm_compute. exact I.
Defined.

(** X12 on the scenario: a list as the status is not answered. *)
Lemma update_order_replies_witness :
  App.update_order "ORD001" (PyDict [("status", PyList [PyStr "shipped"])])
    st_created
  = (App.Unhandled (App.Escaped (TypeError "unhashable type: 'list'")),
     st_created).
Proof.
  refine (proj2 (proj2 (update_order_replies st_created "ORD001"
                          [("status", PyList [PyStr "shipped"])] _ _))
            [PyStr "shipped"] _ _).
  - discriminate.
  - discriminate.
  - reflexivity.
  - discriminate.
Defined.

(** X13 on the scenario: ORD001 is deleted through the handler. *)
Lemma delete_order_replies_witness :
  App.delete_order "ORD001" st_created
  = (App.Response (App.JsonOrder 0) 200,
     State (delete "ORD001" (_orders st_created)) (heap st_created))
  ∧ App.get_order "ORD001"
      (State (delete "ORD001" (_orders st_created)) (heap st_created))
    = (App.Response (App.JsonError (KeyError (OrderNotFound "ORD001"))) 404,
       State (delete "ORD001" (_orders st_created)) (heap st_created))
  ∧ App.delete_order "ORD001"
      (State (delete "ORD001" (_orders st_created)) (heap st_created))
    = (App.Response (App.JsonError (KeyError (OrderNotFound "ORD001"))) 404,
       State (delete "ORD001" (_orders st_created)) (heap st_created)).
Proof.
  apply (delete_order_replies st_created "ORD001" ltac:(discriminate)).
  reflexivity.
Defined.

(** * Requests in sequence *)

Lemma list_orders_body_state (status customer_id : option string)
    (st : state) :
  (App.list_orders_body status customer_id st).2 = st.
Proof.
  unfold App.list_orders_body. rewrite bind_eval.
  assert (Hfirst :
    ((if App.given status
      then list_orders_by_status (PyStr (default "" status))
      else list_all_orders) st).2 = st).
  { destruct (App.given status); [apply list_orders_by_status_state | done]. }
  destruct ((if App.given status
             then list_orders_by_status (PyStr (default "" status))
             else list_all_orders) st) as [[e|found] st0];
    simpl in Hfirst; subst st0; [done |].
  destruct (App.given customer_id); [| done].
  apply comprehension_state. intros o. rewrite bind_eval.
  unfold getitem. by destruct (heap st !! o ≫= dict_get "customer_id").
Qed.

(** What serving one request does to the state: nothing, or what one call
    of the tracker or of the storage does; and nothing unless the reply is
    a 200 or a 201. *)
Lemma handle_state (r : App.request) (st : state) :
  (App.handle r st).2 = st
  ∨ (App.succeeded (App.handle r st).1 = true
     ∧ ∃ c, (App.handle r st).2 = exec c st).
Proof.
  destruct r as [data|k|k data|status cid|k]; simpl.
  - unfold App.create_order.
    destruct (negb (truthy data)); [by left |].
    destruct (negb (isinstance data TDict)); [by left |].
    set (oid := App.get_or_none _ "order_id").
    set (items := App.get_or_none _ "items").
    set (cid := App.get_or_none _ "customer_id").
    destruct (add_order_effect oid items cid st)
      as [[Hst [v Hv]]|(k & _ & _ & _ & Hr & Hst)];
      unfold result_of, state_after in *.
    + left. destruct (add_order oid items cid st) as [res st'].
      simpl in *. by subst.
    + right. unfold exec, state_after.
      destruct (add_order oid items cid st) as [res st'] eqn:Hadd.
      simpl in *. subst res. simpl. split; [done |].
      exists (AddOrder oid items cid). simpl. by rewrite Hadd.
  - left. unfold App.get_order. rewrite get_order_by_id_eval.
    destruct (_ || _); [done |]. by destruct (_orders st !! _).
  - unfold App.update_order.
    destruct (negb (truthy data)); [by left |].
    destruct (negb (isinstance data TDict)); [by left |].
    set (ns := App.get_or_none _ "status").
    destruct (negb (truthy ns)); [by left |].
    destruct (update_order_status_effect (PyStr k) ns st)
      as [[Hst [e He]]|(k0 & o & s & _ & _ & _ & _ & Hr & Hst)];
      unfold result_of, state_after in *.
    + left. destruct (update_order_status (PyStr k) ns st) as [res st'].
      simpl in *. subst. by destruct e as [v|v|msg].
    + right. unfold exec, state_after.
      destruct (update_order_status (PyStr k) ns st) as [res st'] eqn:Hupd.
      simpl in *. subst res. simpl. split; [done |].
      exists (UpdateOrderStatus (PyStr k) ns). simpl. by rewrite Hupd.
  - left. unfold App.list_orders.
    pose proof (list_orders_body_state status cid st) as Hst.
    destruct (App.list_orders_body status cid st) as [[e|found] st'];
      simpl in *; subst; [| done].
    by destruct e as [v|v|msg].
  - unfold App.delete_order, App.delete_order_body. rewrite bind_eval.
    rewrite get_order_by_id_eval.
    destruct (_ || _); [by left |].
    destruct (_orders st !! _); [| by left].
    right. split; [done |]. by exists (StorageDelete k).
Qed.

Lemma run_app (cs1 cs2 : list call) (st : state) :
  run (cs1 ++ cs2) st = run cs2 (run cs1 st).
Proof. revert st. induction cs1 as [|c cs1 IH]; intros st; simpl; auto. Qed.

Lemma serve_is_run (rs : list App.request) (st : state) :
  ∃ cs, App.serve rs st = run cs st.
Proof.
  revert st. induction rs as [|r rs IH]; intros st; simpl.
  - by exists [].
  - destruct (handle_state r st) as [->|[_ [c ->]]].
    + apply IH.
    + destruct (IH (exec c st)) as [cs ->]. by exists (c :: cs).
Qed.

(** X15: a request that is not answered with a 200 or a 201, be it
    answered with a 400 or a 404 or not answered at all because an
    exception escaped, leaves the state exactly as it was; so do the two
    reading routes whatever they answer. *)
Theorem failed_request_changes_nothing (r : App.request) (st : state) :
  (App.succeeded (App.handle r st).1 = false → (App.handle r st).2 = st)
  ∧ (∀ order_id, (App.handle (App.GET_order order_id) st).2 = st)
  ∧ (∀ status customer_id,
       (App.handle (App.GET_orders status customer_id) st).2 = st).
Proof.
  split; [| split].
  - intros Hfail. destruct (handle_state r st) as [Hst|[Hok _]]; congruence.
  - intros k.
    destruct (handle_state (App.GET_order k) st) as [Hst|[_ [c Hc]]]; [done |].
    simpl. unfold App.get_order. rewrite get_order_by_id_eval.
    destruct (_ || _); [done |]. by destruct (_orders st !! _).
  - intros status cid. simpl. unfold App.list_orders.
    pose proof (list_orders_body_state status cid st) as Hst.
    destruct (App.list_orders_body status cid st) as [[e|found] st'];
      simpl in *; subst; [| done].
    by destruct e as [v|v|msg].
Qed.

(** X16: whatever requests are served from the empty store, and whatever
    their bodies hold, the state is one that calls of the tracker and of
    the storage reach; so every stored record is stored under its own
    non-empty identifier, has exactly the four fields, and has a status of
    the vocabulary. *)
Theorem served_store_is_well_formed (rs : list App.request) :
  (∃ cs, App.serve rs empty_state = run cs empty_state)
  ∧ (∀ order_id order,
       _orders (App.serve rs empty_state) !! order_id = Some order →
       order_id ≠ ""
       ∧ ∃ d s, heap (App.serve rs empty_state) !! order = Some d
                ∧ dict_keys d = ["order_id"; "items"; "customer_id"; "status"]
                ∧ dict_get "order_id" d = Some (PyStr order_id)
                ∧ dict_get "status" d = Some (PyStr s)
                ∧ s ∈ VALID_STATUSES).
Proof.
  destruct (serve_is_run rs empty_state) as [cs Hcs].
  split; [by exists cs |]. rewrite Hcs. intros k o Hk.
  destruct (run_store_ok cs empty_state empty_store_ok _ _ Hk)
    as (d & Hd & Hne & Hkeys & Hid & s & Hs & Hin).
  split; [done |]. by exists d, s.
Qed.
